(** * update_manifest.py: the release-manifest updater

    A shallow embedding of [.github/scripts/update_manifest.py] and the
    properties of its single function [main].

    Conventions of the embedding.
    - A Python [str] is a Rocq [string] holding its UTF-8 encoding.
      [lstrip] looks for an ASCII character and [strip] for Python's
      white space, each code point in its UTF-8 form; [lower] changes
      ASCII letters only, which is all the comparison it feeds needs.
    - Values produced by [json.load] and [yaml.safe_load] are terms of
      [json]; a Python [dict] is an association list in insertion
      order; what YAML can give and JSON cannot is [JOpaque].
    - [os.environ] and the file system are finite maps from names to
      text; the files are regular files, and the parsers are handed the
      content of the file they read.
    - The script's effects (files written, lines printed, exceptions)
      are threaded through the monad [M]. *)

From Stdlib Require Import Ascii String ZArith.
From stdpp Require Import gmap strings list pretty.

Local Open Scope string_scope.
Local Open Scope list_scope.

(** ** Python strings *)

Module PyStr.

Definition ascii_lower (c : ascii) : ascii :=
  let n := nat_of_ascii c in
  if (65 <=? n)%nat && (n <=? 90)%nat then ascii_of_nat (n + 32) else c.

(** [s.lower()] *)
Fixpoint lower (s : string) : string :=
  match s with
  | EmptyString => EmptyString
  | String c r => String (ascii_lower c) (lower r)
  end.

Fixpoint char_in (c : ascii) (chars : string) : bool :=
  match chars with
  | EmptyString => false
  | String d r => Ascii.eqb c d || char_in c r
  end.

(** [s.lstrip(chars)]: drops the longest prefix of [s] made of
    characters that occur in [chars]. *)
Fixpoint lstrip (s chars : string) : string :=
  match s with
  | EmptyString => EmptyString
  | String c r => if char_in c chars then lstrip r chars else s
  end.

Definition reverse (s : string) : string :=
  string_of_list_ascii (rev (list_ascii_of_string s)).

Definition of_bytes (codes : list nat) : string :=
  string_of_list_ascii (map ascii_of_nat codes).

(** The white space of [str.strip()], one string per code point:
    U+0009 to U+000D, U+001C to U+0020, U+0085, U+00A0, U+1680,
    U+2000 to U+200A, U+2028, U+2029, U+202F, U+205F and U+3000. *)
Definition whitespace : list string :=
  map of_bytes
    [[9]; [10]; [11]; [12]; [13]; [28]; [29]; [30]; [31]; [32];
     [194; 133]; [194; 160]; [225; 154; 128];
     [226; 128; 128]; [226; 128; 129]; [226; 128; 130]; [226; 128; 131];
     [226; 128; 132]; [226; 128; 133]; [226; 128; 134]; [226; 128; 135];
     [226; 128; 136]; [226; 128; 137]; [226; 128; 138];
     [226; 128; 168]; [226; 128; 169]; [226; 128; 175]; [226; 129; 159];
     [227; 128; 128]]%nat.

(** [s] without [p] at its front, when [s] starts with [p]. *)
Fixpoint drop_prefix (p s : string) : option string :=
  match p with
  | EmptyString => Some s
  | String c p' =>
      match s with
      | String d s' => if Ascii.eqb c d then drop_prefix p' s' else None
      | EmptyString => None
      end
  end.

(** [s] without the first of the [tokens] it starts with. *)
Fixpoint drop_any (tokens : list string) (s : string) : option string :=
  match tokens with
  | nil => None
  | t :: rest =>
      match drop_prefix t s with
      | Some r => Some r
      | None => drop_any rest s
      end
  end.

(** Drops leading tokens, at most [fuel] of them. *)
Fixpoint lstrip_tokens (fuel : nat) (tokens : list string) (s : string) : string :=
  match fuel with
  | O => s
  | S n =>
      match drop_any tokens s with
      | Some r => lstrip_tokens n tokens r
      | None => s
      end
  end.

(** [s.strip()]: the white space goes from the front, then from the
    back; the length of the text is fuel enough for either. *)
Definition strip (s : string) : string :=
  let t := lstrip_tokens (String.length s) whitespace s in
  reverse (lstrip_tokens (String.length t) (map reverse whitespace) (reverse t)).

Definition starts_with (p s : string) : bool := String.prefix p s.

Definition ends_with (p s : string) : bool :=
  String.prefix (reverse p) (reverse s).

(** [os.path.join(a, b)] of [posixpath], for two components. *)
Definition os_path_join (a b : string) : string :=
  if starts_with "/" b then b
  else if String.eqb a "" || ends_with "/" a then a +:+ b
  else a +:+ "/" +:+ b.

End PyStr.

(** ** Parsed documents *)

#[warnings="-register-all"]
Inductive json : Type :=
| JNull
| JBool (b : bool)
| JInt (z : Z)
| JFloat (literal : string)
| JStr (s : string)
| JArr (items : list json)
| JObj (fields : list (string * json))
| JOpaque (repr : string).

Abbreviation dict := (list (string * json)).

(** [JOpaque] is a Python object with no JSON form, as [yaml.safe_load]
    can return: a date, bytes, a set, a mapping with keys that are not
    strings, a reference back into the structure that holds it.
    [plain] values have none inside. *)
Fixpoint plain (v : json) : bool :=
  match v with
  | JOpaque _ => false
  | JArr items => forallb plain items
  | JObj fields => forallb (fun kv => let '(_, x) := kv in plain x) fields
  | _ => true
  end.

(** [d.get(k)] as an option; the first binding of [k] is the one a
    Python dict holds. *)
Fixpoint dict_get (d : dict) (k : string) : option json :=
  match d with
  | [] => None
  | (k', v) :: r => if String.eqb k' k then Some v else dict_get r k
  end.

(** [d[k] = v]: replaces the value in place when [k] is present, adds
    the binding at the end otherwise. *)
Fixpoint dict_set (d : dict) (k : string) (v : json) : dict :=
  match d with
  | [] => [(k, v)]
  | (k', v') :: r =>
      if String.eqb k' k then (k, v) :: r else (k', v') :: dict_set r k v
  end.

(** ** Exceptions and the two monads *)

Inductive exn : Type :=
| ValueError (msg : string)
| FileNotFoundError (msg : string)
| OSError (path : string)
| YAMLError
| AttributeError
| KeyError (key : string)
| TypeError
| JSONDecodeError
| UnicodeDecodeError
| RecursionError.

Inductive result (A : Type) : Type :=
| Ok (a : A)
| Raise (e : exn).
Arguments Ok {A} a.
Arguments Raise {A} e.

Definition is_ok {A} (r : result A) : bool :=
  match r with Ok _ => true | Raise _ => false end.

(** What the script can change: the files and the lines printed. *)
Record state : Type := State {
  files : gmap string string;
  stdout : list string
}.

(** What the script only reads: the environment, the clock (already
    formatted by [strftime('%Y-%m-%dT%H:%M:%SZ')]) and which paths can
    be opened for writing. *)
Record world : Type := World {
  environ : gmap string string;
  utcnow : string;
  writable : string -> bool
}.

Definition M (A : Type) : Type := state -> result A * state.

Definition ret {A} (a : A) : M A := fun st => (Ok a, st).

Definition raise {A} (e : exn) : M A := fun st => (Raise e, st).

Definition bind {A B} (m : M A) (k : A -> M B) : M B :=
  fun st =>
    match m st with
    | (Ok a, st') => k a st'
    | (Raise e, st') => (Raise e, st')
    end.

Definition lift {A} (r : result A) : M A := fun st => (r, st).

Declare Scope py_scope.
Delimit Scope py_scope with py.
Notation "x <- c1 ;; c2" := (bind c1 (fun x => c2))
  (at level 100, c1 at next level, right associativity) : py_scope.
Notation "c1 ;; c2" := (bind c1 (fun _ => c2))
  (at level 100, right associativity) : py_scope.
Local Open Scope py_scope.

Definition print (line : string) : M unit :=
  fun st => (Ok tt, State (files st) (stdout st ++ [line])).

(** [os.path.exists(path)] *)
Definition path_exists (path : string) : M bool :=
  fun st => (Ok (bool_decide (is_Some (files st !! path))), st).

(** [open(path, 'r')] followed by [read()] *)
Definition read_file (path : string) : M string :=
  fun st =>
    match files st !! path with
    | Some text => (Ok text, st)
    | None => (Raise (FileNotFoundError path), st)
    end.

(** [open(path, 'w')]: the file is there and empty from this point. *)
Definition open_write (w : world) (path : string) : M unit :=
  fun st =>
    if writable w path
    then (Ok tt, State (<[path := ""]> (files st)) (stdout st))
    else (Raise (OSError path), st).

(** [f.write(text)] on the file opened at [path] *)
Definition write (path text : string) : M unit :=
  fun st =>
    (Ok tt, State (<[path := default "" (files st !! path) +:+ text]> (files st))
                  (stdout st)).

(** [open(path, 'a')] followed by one [write(text)] *)
Definition append_file (w : world) (path text : string) : M unit :=
  fun st =>
    if writable w path
    then (Ok tt, State (<[path := default "" (files st !! path) +:+ text]>
                          (files st)) (stdout st))
    else (Raise (OSError path), st).

(** ** The libraries the script calls *)

Class Library : Type := {
  (** [json.load(f)]: the value, or the exception raised, among them
      [JSONDecodeError] for a text that is not JSON, [ValueError] for an
      integer of too many digits, [UnicodeDecodeError] for a content
      that does not decode, [RecursionError] *)
  json_load : string -> result json;
  (** what [json.load] returns has a JSON form *)
  json_load_plain : forall text v, json_load text = Ok v -> plain v = true;
  (** [json.dump(_, f, indent=4)]: the text it wrote to the file, and
      the exception that stopped it, if one did ([TypeError] at an
      object with no JSON form, [ValueError] at a circular reference) *)
  json_dump : json -> string * option exn;
  (** [yaml.safe_load(f)]: the value, or the exception raised *)
  yaml_safe_load : string -> result json;
  (** [str(v)] for a value that is not itself a [str] *)
  py_repr : json -> string
}.

(** ** The script *)

Section Script.
Context `{Library}.

(** [not v] for a value read with [os.environ.get]: an unset variable
    and the empty string are both falsy.  [truthy v] is the value the
    code goes on with. *)
Definition truthy (v : option string) : option string :=
  match v with
  | Some s => if String.eqb s "" then None else Some s
  | None => None
  end.

Definition required (v : option string) (e : exn) : M string :=
  match truthy v with
  | Some s => ret s
  | None => raise e
  end.

Definition bind_result {A B} (r : result A) (k : A -> result B) : result B :=
  match r with
  | Ok a => k a
  | Raise e => Raise e
  end.

(** [v.get(k, dflt)]: only a dict has the method. *)
Definition py_get (v : json) (k : string) (dflt : json) : result json :=
  match v with
  | JObj d => Ok (default dflt (dict_get d k))
  | _ => Raise AttributeError
  end.

(** [v == s] for a [str] [s] *)
Definition eq_str (v : json) (s : string) : bool :=
  match v with
  | JStr t => String.eqb t s
  | _ => false
  end.

(** [f"{v}"] *)
Definition format_value (v : json) : string :=
  match v with
  | JStr s => s
  | _ => py_repr v
  end.

(** [f"{v}"] for a value read with [os.environ.get(k)] *)
Definition format_env (v : option string) : string := default "None" v.

(** Lines 13-15. *)
Definition is_prerelease (env : gmap string string) : bool :=
  String.eqb (PyStr.lower (default "false" (env !! "IS_PRERELEASE"))) "true".

Definition target_filename (env : gmap string string) : string :=
  if is_prerelease env then "manifest-prerelease.json" else "manifest.json".

Definition manifest_file (env : gmap string string) : string :=
  PyStr.os_path_join "manifest-repo" (target_filename env).

Definition build_file : string := PyStr.os_path_join "plugin-repo" "build.yaml".

Definition checksum_file : string := "checksum.txt".

(** Line 38. *)
Definition version_str (build_config : json) (tag_name : string) : result json :=
  py_get build_config "version" (JStr (PyStr.lstrip tag_name "v")).

(** Line 55. *)
Definition source_url (repo_slug : option string) (tag_name artifact_name : string) : string :=
  "https://github.com/" +:+ format_env repo_slug +:+ "/releases/download/"
    +:+ tag_name +:+ "/" +:+ artifact_name.

(** Lines 39-40 and 55-65: the new version entry. *)
Definition new_version_entry (w : world) (build_config : json) (tag_name : string)
    (version : json) (artifact_name checksum : string) : result json :=
  let release_body := default "See release notes." (environ w !! "RELEASE_BODY") in
  let repo_slug := environ w !! "GITHUB_REPOSITORY" in
  bind_result (py_get build_config "targetAbi" (JStr "unknown")) (fun target_abi =>
  Ok (JObj [("version", version);
            ("changelog", JStr release_body);
            ("timestamp", JStr (utcnow w));
            ("sourceUrl", JStr (source_url repo_slug tag_name artifact_name));
            ("checksum", JStr checksum);
            ("targetAbi", target_abi)])).

(** Lines 67-77: the manifest read from disk, or the empty list.  Of
    what [json.load] raises only [JSONDecodeError] is caught. *)
Definition manifest_data (path : string) : M json :=
  found <- path_exists path;;
  if found : bool then
    text <- read_file path;;
    match json_load text with
    | Ok v => ret v
    | Raise JSONDecodeError =>
        print ("'" +:+ path +:+ "' is invalid JSON. A new one will be created.");;
        ret (JArr [])
    | Raise e => raise e
    end
  else
    print ("'" +:+ path +:+ "' does not exist. A new one will be created.");;
    ret (JArr []).

(** [for plugin in v]: a list yields its items, a dict its keys, a
    [str] its characters; nothing else that [json.load] returns can be
    iterated, and [json.load] returns no [JOpaque]. *)
Definition py_iter (v : json) : result (list json) :=
  match v with
  | JArr items => Ok items
  | JObj d => Ok (map (fun kv => JStr (fst kv)) d)
  | JStr s => Ok (map (fun c => JStr (String c EmptyString)) (list_ascii_of_string s))
  | _ => Raise TypeError
  end.

(** [v.append(x)] *)
Definition py_append (v x : json) : result json :=
  match v with
  | JArr items => Ok (JArr (items ++ [x]))
  | _ => Raise AttributeError
  end.

(** Lines 84-91, on the dict of the plugin that matched. *)
Definition update_plugin (build_config entry : json) (plugin : dict) : result dict :=
  bind_result (py_get build_config "category" (JStr "General")) (fun category =>
  let plugin := dict_set plugin "category" category in
  bind_result (py_get build_config "name" (JStr "Unknown Plugin")) (fun name =>
  let plugin := dict_set plugin "name" name in
  bind_result (py_get build_config "description" (JStr "")) (fun description =>
  let plugin := dict_set plugin "description" description in
  bind_result (py_get build_config "owner" (JStr "Unknown Owner")) (fun owner =>
  let plugin := dict_set plugin "owner" owner in
  bind_result (py_get build_config "overview" (JStr "")) (fun overview =>
  let plugin := dict_set plugin "overview" overview in
  match dict_get plugin "versions" with
  | None => Raise (KeyError "versions")
  | Some (JArr versions) => Ok (dict_set plugin "versions" (JArr (entry :: versions)))
  | Some _ => Raise AttributeError
  end))))).

(** Lines 81-93: the loop.  [Some items'] when a plugin matched (the
    items with that plugin updated), [None] when the loop ran to its
    end with [plugin_found] still false. *)
Fixpoint find_plugin (plugin_guid : string) (build_config entry : json)
    (items : list json) : result (option (list json)) :=
  match items with
  | [] => Ok None
  | plugin :: rest =>
      bind_result (py_get plugin "guid" JNull) (fun guid =>
      if eq_str guid plugin_guid then
        match plugin with
        | JObj d =>
            bind_result (update_plugin build_config entry d) (fun d' =>
            Ok (Some (JObj d' :: rest)))
        | _ => Raise AttributeError
        end
      else
        bind_result (find_plugin plugin_guid build_config entry rest) (fun r =>
        Ok (option_map (cons plugin) r)))
  end.

(** Lines 97-105. *)
Definition new_plugin_entry_obj (plugin_guid : string) (build_config entry : json) : result json :=
  bind_result (py_get build_config "category" (JStr "General")) (fun category =>
  bind_result (py_get build_config "name" (JStr "Unknown Plugin")) (fun name =>
  bind_result (py_get build_config "description" (JStr "")) (fun description =>
  bind_result (py_get build_config "owner" (JStr "Unknown Owner")) (fun owner =>
  bind_result (py_get build_config "overview" (JStr "")) (fun overview =>
  Ok (JObj [("category", category); ("guid", JStr plugin_guid);
            ("name", name); ("description", description);
            ("owner", owner); ("overview", overview);
            ("versions", JArr [entry])])))))).

(** Lines 79-106: find the plugin by GUID and update it, or create it. *)
Definition upsert (plugin_guid : string) (build_config entry manifest : json) : M json :=
  items <- lift (py_iter manifest);;
  found <- lift (find_plugin plugin_guid build_config entry items);;
  match found with
  | Some items' => ret (JArr items')
  | None =>
      print ("Plugin with GUID " +:+ plugin_guid +:+ " not found. Creating new entry.");;
      obj <- lift (new_plugin_entry_obj plugin_guid build_config entry);;
      lift (py_append manifest obj)
  end.

Definition newline : string := String (ascii_of_nat 10) EmptyString.

(** Lines 115-118. *)
Definition emit_output (w : world) (version : json) : M unit :=
  print ("manifest_version=" +:+ format_value version);;
  match environ w !! "GITHUB_OUTPUT" with
  | Some path => append_file w path ("manifest_version=" +:+ format_value version +:+ newline)
  | None => ret tt
  end.

(** Lines 109-111: the file is opened, which empties it, the dump
    writes what it can, and the last line is printed when the dump
    came to its end. *)
Definition dump_manifest (w : world) (path : string) (manifest : json) : M unit :=
  open_write w path;;
  let '(text, stopped) := json_dump manifest in
  write path text;;
  match stopped with
  | Some e => raise e
  | None => print ("Successfully wrote to " +:+ path)
  end.

(** Lines 54-118: everything after the inputs have been checked. *)
Definition publish (w : world) (plugin_guid : string) (build_config : json)
    (tag_name : string) (version : json) (artifact_name checksum : string) : M unit :=
  entry <- lift (new_version_entry w build_config tag_name version artifact_name checksum);;
  manifest <- manifest_data (manifest_file (environ w));;
  manifest' <- upsert plugin_guid build_config entry manifest;;
  dump_manifest w (manifest_file (environ w)) manifest';;
  emit_output w version.

(** Lines 6-118. *)
Definition main (w : world) : M unit :=
  let env := environ w in
  print ("Release type detected: " +:+ (if is_prerelease env then "Prerelease" else "Stable"));;
  print ("Updating file: " +:+ target_filename env);;
  plugin_guid <- required (env !! "PLUGIN_GUID")
                   (ValueError "Environment variable PLUGIN_GUID is missing");;
  print ("Reading build config from: " +:+ build_file);;
  text <- read_file build_file;;
  build_config <- lift (yaml_safe_load text);;
  tag_name <- required (env !! "GITHUB_REF_NAME") (ValueError "GITHUB_REF_NAME is missing");;
  version <- lift (version_str build_config tag_name);;
  artifact_name <- required (env !! "ARTIFACT_NAME")
                     (ValueError "ARTIFACT_NAME environment variable is missing");;
  found <- path_exists checksum_file;;
  if found : bool then
    text <- read_file checksum_file;;
    publish w plugin_guid build_config tag_name version artifact_name (PyStr.strip text)
  else
    raise (FileNotFoundError ("Checksum file not found at " +:+ checksum_file)).

End Script.

(** ** Vocabulary of the specification *)

(** The value an entry holds under a key; nothing for a value that is
    not an object. *)
Definition field (v : json) (k : string) : option json :=
  match v with
  | JObj d => dict_get d k
  | _ => None
  end.

Definition is_object (v : json) : Prop := exists d, v = JObj d.

(** A [PluginEntry] of the data model, as far as the script relies on
    it: an object whose [versions] is a list. *)
Definition plugin_entry (v : json) : Prop :=
  is_object v /\ exists versions, field v "versions" = Some (JArr versions).

(** The entry's guid equals the given plugin GUID. *)
Definition has_guid (g : string) (v : json) : Prop :=
  field v "guid" = Some (JStr g).

(** At most one entry per guid. *)
Definition unique_guids (items : list json) : Prop :=
  forall (i j : nat) (x y g : json),
    items !! i = Some x -> items !! j = Some y ->
    field x "guid" = Some g -> field y "guid" = Some g -> i = j.

(** The test of the loop as a boolean. *)
Definition matches (g : string) (v : json) : bool :=
  match v with
  | JObj d => eq_str (default JNull (dict_get d "guid")) g
  | _ => false
  end.

(** The metadata value the build config gives for a key, with the
    default for an absent key. *)
Definition config_value (build_config : dict) (k dflt : string) : json :=
  default (JStr dflt) (dict_get build_config k).

(** The five metadata keys and their defaults. *)
Definition metadata_defaults : list (string * string) :=
  [("category", "General"); ("name", "Unknown Plugin"); ("description", "");
   ("owner", "Unknown Owner"); ("overview", "")].

(** The keys the found branch assigns. *)
Definition assigned_keys : list string :=
  ["category"; "name"; "description"; "owner"; "overview"; "versions"].



(** The spellings of a word up to the case of its ASCII letters. *)
Definition ascii_upper (c : ascii) : ascii :=
  let n := nat_of_ascii c in
  if (97 <=? n)%nat && (n <=? 122)%nat then ascii_of_nat (n - 32) else c.

Fixpoint spellings (word : string) : list string :=
  match word with
  | EmptyString => [EmptyString]
  | String c r =>
      let rest := spellings r in
      if Ascii.eqb (ascii_upper c) (PyStr.ascii_lower c)
      then map (String c) rest
      else map (String (PyStr.ascii_lower c)) rest ++ map (String (ascii_upper c)) rest
  end.

(** Case-insensitive equality of the specification. *)
Definition equal_ignoring_case (s word : string) : Prop := s ∈ spellings word.

(** The same world with another environment. *)
Definition with_environ (w : world) (env : gmap string string) : world :=
  World env (utcnow w) (writable w).

(** The state after some more lines have been printed. *)
Definition logged (st : state) (lines : list string) : state :=
  State (files st) (stdout st ++ lines).

(** The inputs pass every check of lines 23-52: the GUID, the tag and
    the artifact name are set and not empty, the build config is there
    and loads as [build_config], the checksum file is there and holds
    [checksum_text]. *)
Record checked_inputs `{Library} (w : world) (st : state) (plugin_guid : string)
    (build_config : json) (tag_name artifact_name checksum_text : string) : Prop := {
  checked_guid : truthy (environ w !! "PLUGIN_GUID") = Some plugin_guid;
  checked_build : exists text,
    files st !! build_file = Some text /\ yaml_safe_load text = Ok build_config;
  checked_tag : truthy (environ w !! "GITHUB_REF_NAME") = Some tag_name;
  checked_artifact : truthy (environ w !! "ARTIFACT_NAME") = Some artifact_name;
  checked_checksum : files st !! checksum_file = Some checksum_text
}.

(** The manifest, and the pipeline output when one is configured, can
    be opened for writing. *)
Definition outputs_writable (w : world) : Prop :=
  writable w (manifest_file (environ w)) = true
  /\ forall path, environ w !! "GITHUB_OUTPUT" = Some path -> writable w path = true.

(** What the script prints before it reads the build config. *)
Definition preamble (w : world) : list string :=
  ["Release type detected: "
     +:+ (if is_prerelease (environ w) then "Prerelease" else "Stable");
   "Updating file: " +:+ target_filename (environ w);
   "Reading build config from: " +:+ build_file].

(** The three inputs the script insists on. *)
Definition required_inputs : list string :=
  ["PLUGIN_GUID"; "GITHUB_REF_NAME"; "ARTIFACT_NAME"].

(** A library for the worked examples: a printer of documents on one
    line, and readers that know the documents the examples use. *)
Definition quote : string := String (ascii_of_nat 34) EmptyString.

(** The text written for a value, and whether the value was written
    to its end: the printer stops at the first object with no JSON
    form. *)
Fixpoint example_write (v : json) : string * bool :=
  match v with
  | JNull => ("null", true)
  | JBool b => (if b then "true" else "false", true)
  | JInt z => (pretty z, true)
  | JFloat literal => (literal, true)
  | JStr s => (quote +:+ s +:+ quote, true)
  | JOpaque _ => ("", false)
  | JArr items =>
      let '(t, ok) :=
        (fix go (first : bool) (l : list json) : string * bool :=
           match l with
           | [] => ("]", true)
           | x :: r =>
               let sep := if first then "" else ", " in
               let '(tx, okx) := example_write x in
               if okx
               then let '(tr, okr) := go false r in (sep +:+ tx +:+ tr, okr)
               else (sep +:+ tx, false)
           end) true items in
      ("[" +:+ t, ok)
  | JObj fields =>
      let '(t, ok) :=
        (fix go (first : bool) (l : list (string * json)) : string * bool :=
           match l with
           | [] => ("}", true)
           | (k, x) :: r =>
               let sep := if first then "" else ", " in
               let '(tx, okx) := example_write x in
               if okx
               then let '(tr, okr) := go false r in
                    (sep +:+ quote +:+ k +:+ quote +:+ ": " +:+ tx +:+ tr, okr)
               else (sep +:+ quote +:+ k +:+ quote +:+ ": " +:+ tx, false)
           end) true fields in
      ("{" +:+ t, ok)
  end.

Definition example_dump (v : json) : string := fst (example_write v).

Definition example_json_dump (v : json) : string * option exn :=
  let '(text, ok) := example_write v in (text, if ok then None else Some TypeError).

Definition example_repr (v : json) : string :=
  match v with
  | JOpaque repr => repr
  | _ => example_dump v
  end.

Definition example_json_load (text : string) : result json :=
  if String.eqb text "[]" then Ok (JArr []) else Raise JSONDecodeError.

Definition example_json_load_plain text v :
  example_json_load text = Ok v -> plain v = true.
Proof.
  unfold example_json_load. destruct (String.eqb text "[]"); intros Hv;
    inversion Hv; reflexivity.
Qed.

Definition example_build_config : json :=
  JObj [("name", JStr "Foo"); ("category", JStr "Tools")].

Definition example_build_yaml : string :=
  "name: Foo" +:+ String (ascii_of_nat 10) "category: Tools".

Definition example_library : Library := {|
  json_load := example_json_load;
  json_load_plain := example_json_load_plain;
  json_dump := example_json_dump;
  yaml_safe_load := fun text =>
    if String.eqb text example_build_yaml then Ok example_build_config
    else Raise YAMLError;
  py_repr := example_repr
|}.

Definition example_world : world :=
  World (list_to_map [("PLUGIN_GUID", "G1"); ("GITHUB_REF_NAME", "v1.0.0");
                      ("ARTIFACT_NAME", "foo.zip"); ("GITHUB_REPOSITORY", "o/r")])
        "2024-01-01T00:00:00Z" (fun _ => true).

Definition example_state : state :=
  State (list_to_map [("plugin-repo/build.yaml", example_build_yaml);
                      ("checksum.txt", "abc123" +:+ String (ascii_of_nat 10) "")]) [].


(** The example world with GITHUB_REPOSITORY unset. *)
Definition example_world_no_slug : world :=
  with_environ example_world (delete "GITHUB_REPOSITORY" (environ example_world)).

(** The manifest of the scenario of the specification: GUID G1 absent,
    build config with name Foo and category Tools, tag v1.0.0, artifact
    foo.zip, checksum abc123, repository o/r. *)
Definition scenario_manifest : json :=
  JArr [JObj [("category", JStr "Tools"); ("guid", JStr "G1"); ("name", JStr "Foo");
              ("description", JStr ""); ("owner", JStr "Unknown Owner");
              ("overview", JStr "");
              ("versions",
               JArr [JObj [("version", JStr "1.0.0");
                           ("changelog", JStr "See release notes.");
                           ("timestamp", JStr "2024-01-01T00:00:00Z");
                           ("sourceUrl",
                            JStr "https://github.com/o/r/releases/download/v1.0.0/foo.zip");
                           ("checksum", JStr "abc123");
                           ("targetAbi", JStr "unknown")]])]].

Definition example_entry : json :=
  JObj [("version", JStr "2.0.0"); ("sourceUrl", JStr "https://example.org/p.zip")].

Definition example_manifest : list json :=
  [JObj [("guid", JStr "G0"); ("name", JStr "Other"); ("versions", JArr [])];
   JObj [("guid", JStr "G1"); ("name", JStr "Old name");
         ("versions", JArr [JObj [("version", JStr "1.0.0")]])]].

(** The environment variables the script reads. *)
Definition read_variables : list string :=
  ["IS_PRERELEASE"; "PLUGIN_GUID"; "GITHUB_REF_NAME"; "RELEASE_BODY";
   "GITHUB_REPOSITORY"; "ARTIFACT_NAME"; "GITHUB_OUTPUT"].

(** The keys of a dict, in the order the dict holds them. *)
Definition dict_keys (d : dict) : list string := map fst d.

(** An entry the loop walks past: an object with another guid. *)
Definition other_plugin (g : string) (v : json) : Prop :=
  is_object v /\ ~ has_guid g v.




(** What loading the manifest file gives: its parsed value, the empty
    list when it is absent or is not JSON, or the exception
    [json.load] raised. *)
Definition loaded_manifest `{Library} (w : world) (st : state) : result json :=
  match files st !! manifest_file (environ w) with
  | Some text =>
      match json_load text with
      | Ok v => Ok v
      | Raise JSONDecodeError => Ok (JArr [])
      | Raise e => Raise e
      end
  | None => Ok (JArr [])
  end.

(** The version a checked run releases. *)
Definition released_version (bc : dict) (tag : string) : json :=
  default (JStr (PyStr.lstrip tag "v")) (dict_get bc "version").

(** The version entry of a release, field by field. *)
Definition release_entry (w : world) (bc : dict) (tag art checksum_text : string) : json :=
  JObj [("version", released_version bc tag);
        ("changelog", JStr (default "See release notes." (environ w !! "RELEASE_BODY")));
        ("timestamp", JStr (utcnow w));
        ("sourceUrl",
         JStr ("https://github.com/" +:+ default "None" (environ w !! "GITHUB_REPOSITORY")
                 +:+ "/releases/download/" +:+ tag +:+ "/" +:+ art));
        ("checksum", JStr (PyStr.strip checksum_text));
        ("targetAbi", config_value bc "targetAbi" "unknown")].

(** The plugin entry of a GUID released for the first time. *)
Definition fields_of_first_release (guid : string) (bc : dict) (entry : json) : dict :=
  [("category", config_value bc "category" "General");
   ("guid", JStr guid);
   ("name", config_value bc "name" "Unknown Plugin");
   ("description", config_value bc "description" "");
   ("owner", config_value bc "owner" "Unknown Owner");
   ("overview", config_value bc "overview" "");
   ("versions", JArr [entry])].

Definition first_release (guid : string) (bc : dict) (entry : json) : json :=
  JObj (fields_of_first_release guid bc entry).

(** The line of the pipeline output. *)
Definition version_line `{Library} (version : json) : string :=
  "manifest_version=" +:+ format_value version.

(** A world in which one path cannot be opened for writing. *)
Definition example_world_locked (path : string) : world :=
  World (<["GITHUB_OUTPUT" := path]> (environ example_world)) (utcnow example_world)
        (fun p => negb (String.eqb p path)).

(** The example library, reading the empty object as well. *)
Definition example_objects_load (text : string) : result json :=
  if String.eqb text "{}" then Ok (JObj []) else example_json_load text.

Definition example_objects_load_plain text v :
  example_objects_load text = Ok v -> plain v = true.
Proof.
  unfold example_objects_load. destruct (String.eqb text "{}").
  - intros Hv. inversion Hv. reflexivity.
  - apply example_json_load_plain.
Qed.

Definition example_library_objects : Library := {|
  json_load := example_objects_load;
  json_load_plain := example_objects_load_plain;
  json_dump := example_json_dump;
  yaml_safe_load := @yaml_safe_load example_library;
  py_repr := example_repr
|}.








(** The example library reading a build config whose version is a
    date, which YAML loads as a date object. *)
Definition example_dated_yaml : string := "version: 2024-01-01".

Definition example_dated_config : json :=
  JObj [("version", JOpaque "2024-01-01")].

Definition example_library_dates : Library := {|
  json_load := example_json_load;
  json_load_plain := example_json_load_plain;
  json_dump := example_json_dump;
  yaml_safe_load := fun text =>
    if String.eqb text example_dated_yaml then Ok example_dated_config
    else @yaml_safe_load example_library text;
  py_repr := example_repr
|}.

Definition example_dated_state : state :=
  State (list_to_map [("plugin-repo/build.yaml", example_dated_yaml);
                      ("checksum.txt", "abc123");
                      ("manifest-repo/manifest.json", "[]")]) [].






(** Runs the monadic steps that are in sight. *)
Ltac run_script :=
  unfold bind, lift, ret, raise, print, required, read_file, path_exists; simpl.

(** ** Dictionaries *)

Lemma dict_get_set_eq (d : dict) k v : dict_get (dict_set d k v) k = Some v.
Proof.
  induction d as [|[k' v'] r IH]; simpl.
  - by rewrite String.eqb_refl.
  - destruct (String.eqb k' k) eqn:E; simpl.
    + by rewrite String.eqb_refl.
    + by rewrite E.
Qed.

Lemma dict_get_set_ne (d : dict) k k' v :
  k <> k' -> dict_get (dict_set d k v) k' = dict_get d k'.
Proof.
  intros Hne.
  assert (String.eqb k k' = false) as Hk by by apply String.eqb_neq.
  induction d as [|[k0 v0] r IH]; simpl.
  - by rewrite Hk.
  - destruct (String.eqb k0 k) eqn:E; simpl.
    + apply String.eqb_eq in E; subst k0. by rewrite Hk.
    + by rewrite IH.
Qed.

(** ** The test of the loop *)

Lemma eq_str_true v g : eq_str v g = true <-> v = JStr g.
Proof.
  destruct v; simpl; try (split; [discriminate | congruence]).
  rewrite String.eqb_eq. split; congruence.
Qed.

Lemma matches_has_guid g v : matches g v = true <-> has_guid g v.
Proof.
  unfold has_guid, field. destruct v; simpl; try (split; [discriminate | congruence]).
  rewrite eq_str_true. destruct (dict_get fields "guid"); simpl; split; congruence.
Qed.

Lemma matches_false g v : matches g v = false <-> ~ has_guid g v.
Proof.
  rewrite <- matches_has_guid. destruct (matches g v); split; congruence.
Qed.

(** ** The found branch *)

Lemma update_plugin_ok (bc : dict) (e : json) (p : dict) (versions : list json) :
  dict_get p "versions" = Some (JArr versions) ->
  exists p',
    update_plugin (JObj bc) e p = Ok p'
    /\ dict_get p' "category" = Some (config_value bc "category" "General")
    /\ dict_get p' "name" = Some (config_value bc "name" "Unknown Plugin")
    /\ dict_get p' "description" = Some (config_value bc "description" "")
    /\ dict_get p' "owner" = Some (config_value bc "owner" "Unknown Owner")
    /\ dict_get p' "overview" = Some (config_value bc "overview" "")
    /\ dict_get p' "versions" = Some (JArr (e :: versions))
    /\ (forall k, k ∉ assigned_keys -> dict_get p' k = dict_get p k).
Proof.
  intros Hv. unfold update_plugin; simpl.
  rewrite !dict_get_set_ne by done. rewrite Hv.
  eexists. split; [reflexivity|].
  repeat split;
    try (rewrite ?dict_get_set_ne by done; by rewrite dict_get_set_eq).
  intros k Hk. unfold assigned_keys in Hk.
  rewrite !dict_get_set_ne; [done|..]; intros <-; apply Hk; set_solver.
Qed.

Lemma update_plugin_keeps (bc e : json) (p p' : dict) k :
  k ∉ assigned_keys ->
  update_plugin bc e p = Ok p' -> dict_get p' k = dict_get p k.
Proof.
  intros Hk. unfold update_plugin.
  destruct bc; simpl; try discriminate.
  destruct (dict_get _ "versions") as [[]|]; try discriminate.
  intros [= <-]. unfold assigned_keys in Hk.
  rewrite !dict_get_set_ne; [done|..]; intros <-; apply Hk; set_solver.
Qed.

(** ** The loop *)

Lemma find_plugin_none g bc e items :
  Forall (fun x => is_object x /\ ~ has_guid g x) items ->
  find_plugin g bc e items = Ok None.
Proof.
  induction 1 as [|x r [[d ->] Hx] _ IH]; simpl; [done|].
  apply matches_false in Hx. simpl in Hx. rewrite Hx, IH. done.
Qed.

Lemma find_plugin_first g bc e pre p p' post :
  Forall (fun x => is_object x /\ ~ has_guid g x) pre ->
  has_guid g (JObj p) ->
  update_plugin bc e p = Ok p' ->
  find_plugin g bc e (pre ++ JObj p :: post) = Ok (Some (pre ++ JObj p' :: post)).
Proof.
  intros Hpre Hp Hup.
  induction Hpre as [|x r [[d ->] Hx] _ IH]; simpl.
  - apply matches_has_guid in Hp. simpl in Hp. by rewrite Hp, Hup.
  - apply matches_false in Hx. simpl in Hx. by rewrite Hx, IH.
Qed.

Lemma find_plugin_inv g bc e items r :
  find_plugin g bc e items = Ok r ->
  match r with
  | None => Forall (fun x => is_object x /\ ~ has_guid g x) items
  | Some items' =>
      exists pre p p' post,
        items = pre ++ JObj p :: post
        /\ items' = pre ++ JObj p' :: post
        /\ Forall (fun x => is_object x /\ ~ has_guid g x) pre
        /\ has_guid g (JObj p)
        /\ update_plugin bc e p = Ok p'
  end.
Proof.
  revert r. induction items as [|x rest IH]; intros r; simpl.
  - intros [= <-]. constructor.
  - destruct x as [| | | | | |d|]; simpl; try discriminate.
    destruct (eq_str _ g) eqn:E.
    + destruct (update_plugin bc e d) as [d'|] eqn:Hup; simpl; try discriminate.
      intros [= <-]. exists [], d, d', rest. repeat split; try done.
      by apply matches_has_guid.
    + destruct (find_plugin g bc e rest) as [r0|] eqn:Hrest; simpl; try discriminate.
      intros [= <-]. specialize (IH _ eq_refl).
      assert (is_object (JObj d) /\ ~ has_guid g (JObj d)) as Hd.
      { split; [by eexists|]. by apply matches_false. }
      destruct r0 as [items'|]; simpl.
      * destruct IH as (pre & p & p' & post & -> & -> & Hpre & Hp & Hup).
        exists (JObj d :: pre), p, p', post. repeat split; try done.
        by constructor.
      * by constructor.
Qed.

(** The first entry with the guid splits the list. *)
Lemma first_with_guid g (items : list json) :
  Exists (has_guid g) items ->
  exists pre x post,
    items = pre ++ x :: post /\ Forall (fun y => ~ has_guid g y) pre /\ has_guid g x.
Proof.
  induction 1 as [x r Hx|x r _ IH].
  - exists [], x, r. by repeat split.
  - destruct (matches g x) eqn:E.
    + apply matches_has_guid in E. exists [], x, r. by repeat split.
    + apply matches_false in E. destruct IH as (pre & y & post & -> & Hpre & Hy).
      exists (x :: pre), y, post. repeat split; try done. by constructor.
Qed.

Lemma insert_middle {A} (pre post : list A) x y :
  <[length pre := y]> (pre ++ x :: post) = pre ++ y :: post.
Proof. rewrite insert_app_r_alt by lia. by rewrite Nat.sub_diag. Qed.

Lemma new_plugin_entry_obj_ok g (bc : dict) e :
  new_plugin_entry_obj g (JObj bc) e =
    Ok (JObj [("category", config_value bc "category" "General");
              ("guid", JStr g);
              ("name", config_value bc "name" "Unknown Plugin");
              ("description", config_value bc "description" "");
              ("owner", config_value bc "owner" "Unknown Owner");
              ("overview", config_value bc "overview" "");
              ("versions", JArr [e])]).
Proof. reflexivity. Qed.

Lemma new_plugin_entry_obj_guid g bc e obj :
  new_plugin_entry_obj g bc e = Ok obj -> has_guid g obj.
Proof.
  destruct bc; simpl; try discriminate. rewrite new_plugin_entry_obj_ok.
  by intros [= <-].
Qed.

(** ** The upsert *)

(** C1. For a manifest of plugin entries that contains an entry with
    the given GUID, the upsert succeeds, prints nothing and changes
    only the first such entry (index [i]): the manifest keeps its
    length, the entry's five metadata fields hold the build config's
    values (the default where the key is absent), its versions are the
    new version entry followed by the prior entries as they were, and
    every other key of the entry is as before. *)
Theorem upsert_existing_plugin (g : string) (bc : dict) (e : json)
    (items : list json) (st : state) :
  Forall plugin_entry items ->
  Exists (has_guid g) items ->
  exists (i : nat) (p p' : dict) (versions : list json),
    items !! i = Some (JObj p)
    /\ has_guid g (JObj p)
    /\ (forall j x, j < i -> items !! j = Some x -> ~ has_guid g x)
    /\ dict_get p "versions" = Some (JArr versions)
    /\ upsert g (JObj bc) e (JArr items) st = (Ok (JArr (<[i := JObj p']> items)), st)
    /\ length (<[i := JObj p']> items) = length items
    /\ (forall k dflt, (k, dflt) ∈ metadata_defaults ->
          dict_get p' k = Some (config_value bc k dflt))
    /\ dict_get p' "versions" = Some (JArr (e :: versions))
    /\ (forall k, k ∉ assigned_keys -> dict_get p' k = dict_get p k).
Proof.
  intros Hwf Hex.
  destruct (first_with_guid _ _ Hex) as (pre & x & post & -> & Hpre & Hx).
  apply Forall_app in Hwf as [Hwf_pre Hwf_x].
  apply Forall_cons in Hwf_x as [[[p ->] [versions Hv]] _]. simpl in Hv.
  destruct (update_plugin_ok bc e p versions Hv)
    as (p' & Hup & Hc & Hn & Hd & Ho & Hov & Hvs & Hother).
  exists (length pre), p, p', versions.
  assert (Forall (fun y => is_object y /\ ~ has_guid g y) pre) as Hpre'.
  { apply Forall_and. split; [|done].
    eapply Forall_impl; [exact Hwf_pre|]. by intros y [Hy _]. }
  rewrite insert_middle.
  repeat split; try done.
  - by apply list_lookup_middle.
  - intros j y Hj Hy. rewrite lookup_app_l in Hy by done.
    by eapply (Forall_lookup_1 _ _ _ _ Hpre).
  - unfold upsert, bind, lift, ret; simpl.
    by rewrite (find_plugin_first g (JObj bc) e pre p p' post Hpre' Hx Hup).
  - rewrite !length_app. done.
  - intros k dflt Hin. unfold metadata_defaults in Hin.
    repeat (apply elem_of_cons in Hin as [[= -> ->]|Hin]; [done|]).
    by apply elem_of_nil in Hin.
Qed.

Lemma upsert_existing_plugin_witness :
  exists (i : nat) (p p' : dict) (versions : list json),
    example_manifest !! i = Some (JObj p)
    /\ has_guid "G1" (JObj p)
    /\ (forall j x, j < i -> example_manifest !! j = Some x -> ~ has_guid "G1" x)
    /\ dict_get p "versions" = Some (JArr versions)
    /\ upsert "G1" example_build_config example_entry (JArr example_manifest)
         example_state
       = (Ok (JArr (<[i := JObj p']> example_manifest)), example_state)
    /\ length (<[i := JObj p']> example_manifest) = length example_manifest
    /\ (forall k dflt, (k, dflt) ∈ metadata_defaults ->
          dict_get p' k
          = Some (config_value [("name", JStr "Foo"); ("category", JStr "Tools")] k dflt))
    /\ dict_get p' "versions" = Some (JArr (example_entry :: versions))
    /\ (forall k, k ∉ assigned_keys -> dict_get p' k = dict_get p k).
Proof.
  apply (upsert_existing_plugin "G1" [("name", JStr "Foo"); ("category", JStr "Tools")]
           example_entry example_manifest example_state).
  - repeat constructor; unfold is_object; simpl; eauto.
  - apply Exists_cons_tl, Exists_cons_hd. reflexivity.
Defined.

(** C2. For a manifest of objects none of which has the given GUID, the
    upsert succeeds and appends exactly one entry at the end: the
    length grows by one, the entries already there keep their places
    and contents, and the new entry holds the GUID, the build config's
    metadata (category General, name Unknown Plugin, empty description,
    owner Unknown Owner, empty overview where the key is absent) and a
    versions list made of the new version entry alone. *)
Theorem upsert_new_plugin (g : string) (bc : dict) (e : json)
    (items : list json) (st : state) :
  Forall is_object items ->
  Forall (fun x => ~ has_guid g x) items ->
  exists obj : json,
    obj = JObj [("category", config_value bc "category" "General");
                ("guid", JStr g);
                ("name", config_value bc "name" "Unknown Plugin");
                ("description", config_value bc "description" "");
                ("owner", config_value bc "owner" "Unknown Owner");
                ("overview", config_value bc "overview" "");
                ("versions", JArr [e])]
    /\ upsert g (JObj bc) e (JArr items) st
       = (Ok (JArr (items ++ [obj])),
          State (files st)
                (stdout st ++ ["Plugin with GUID " +:+ g +:+ " not found. Creating new entry."]))
    /\ length (items ++ [obj]) = S (length items)
    /\ (forall i x, items !! i = Some x -> (items ++ [obj]) !! i = Some x)
    /\ (items ++ [obj]) !! length items = Some obj
    /\ (forall k dflt, (k, dflt) ∈ metadata_defaults ->
          dict_get bc k = None -> field obj k = Some (JStr dflt)).
Proof.
  intros Hobj Hno. eexists. split; [reflexivity|].
  assert (Forall (fun y => is_object y /\ ~ has_guid g y) items) as Hall
    by by apply Forall_and.
  repeat split.
  - unfold upsert, bind, lift, ret, print; simpl.
    by rewrite (find_plugin_none g (JObj bc) e items Hall).
  - rewrite length_app. simpl. lia.
  - intros i x Hi. by apply lookup_app_l_Some.
  - by apply list_lookup_middle.
  - intros k dflt Hin Hnone. unfold metadata_defaults in Hin. unfold config_value.
    repeat (apply elem_of_cons in Hin as [[= -> ->]|Hin]; [simpl; by rewrite Hnone|]).
    by apply elem_of_nil in Hin.
Qed.

Lemma upsert_new_plugin_witness :
  exists obj : json,
    obj = JObj [("category", JStr "Tools"); ("guid", JStr "G2"); ("name", JStr "Foo");
                ("description", JStr ""); ("owner", JStr "Unknown Owner");
                ("overview", JStr ""); ("versions", JArr [example_entry])]
    /\ upsert "G2" example_build_config example_entry (JArr example_manifest) example_state
       = (Ok (JArr (example_manifest ++ [obj])),
          State (files example_state)
                (stdout example_state
                   ++ ["Plugin with GUID " +:+ "G2" +:+ " not found. Creating new entry."]))
    /\ length (example_manifest ++ [obj]) = S (length example_manifest)
    /\ (forall i x, example_manifest !! i = Some x ->
          (example_manifest ++ [obj]) !! i = Some x)
    /\ (example_manifest ++ [obj]) !! length example_manifest = Some obj
    /\ (forall k dflt, (k, dflt) ∈ metadata_defaults ->
          dict_get [("name", JStr "Foo"); ("category", JStr "Tools")] k = None ->
          field obj k = Some (JStr dflt)).
Proof.
  apply (upsert_new_plugin "G2" [("name", JStr "Foo"); ("category", JStr "Tools")]
           example_entry example_manifest example_state).
  - repeat constructor; unfold is_object; eauto.
  - repeat constructor; unfold has_guid; simpl; congruence.
Defined.

(** ** Uniqueness of guids *)

Lemma unique_guids_replace (pre post : list json) (x y : json) :
  field y "guid" = field x "guid" ->
  unique_guids (pre ++ x :: post) -> unique_guids (pre ++ y :: post).
Proof.
  intros Hxy Huniq.
  assert (forall i z, (pre ++ y :: post) !! i = Some z ->
            exists z', (pre ++ x :: post) !! i = Some z'
                       /\ field z' "guid" = field z "guid") as Hsame.
  { intros i z. rewrite <- (insert_middle pre post x y), list_lookup_insert.
    case_decide as Hi.
    - destruct Hi as [<- _]. intros [= <-]. exists x.
      split; [by apply list_lookup_middle | done].
    - intros Hz. by exists z. }
  intros i j a b g Ha Hb Hga Hgb.
  destruct (Hsame _ _ Ha) as (a' & Ha' & Hfa).
  destruct (Hsame _ _ Hb) as (b' & Hb' & Hfb).
  apply (Huniq i j a' b' g); congruence.
Qed.

Lemma unique_guids_snoc (items : list json) (obj : json) (g : string) :
  has_guid g obj ->
  Forall (fun x => ~ has_guid g x) items ->
  unique_guids items -> unique_guids (items ++ [obj]).
Proof.
  intros Hobj Hno Huniq i j a b g0 Ha Hb Hga Hgb.
  apply lookup_snoc_Some in Ha as [[Hi Ha]|[-> <-]];
    apply lookup_snoc_Some in Hb as [[Hj Hb]|[-> <-]].
  - by apply (Huniq i j a b g0).
  - exfalso. apply (Forall_lookup_1 _ _ _ _ Hno Ha).
    unfold has_guid in *. congruence.
  - exfalso. apply (Forall_lookup_1 _ _ _ _ Hno Hb).
    unfold has_guid in *. congruence.
  - done.
Qed.

(** C8. The upsert keeps guids unique: when no two entries of the
    manifest share a guid and the upsert returns, what it returns is a
    list in which no two entries share a guid, whether an entry was
    updated or a new one appended. *)
Theorem upsert_preserves_unique_guids (g : string) (bc e : json)
    (items : list json) (st st' : state) (m' : json) :
  unique_guids items ->
  upsert g bc e (JArr items) st = (Ok m', st') ->
  exists items', m' = JArr items' /\ unique_guids items'.
Proof.
  intros Huniq. unfold upsert, bind, lift, ret, print; simpl.
  destruct (find_plugin g bc e items) as [[items'|]|] eqn:Hfind; try discriminate.
  - intros [= <- _]. exists items'. split; [done|].
    apply find_plugin_inv in Hfind
      as (pre & p & p' & post & -> & -> & _ & _ & Hup).
    eapply unique_guids_replace; [|exact Huniq]. simpl.
    eapply update_plugin_keeps; [|exact Hup].
    unfold assigned_keys. intros Hin.
    repeat (apply elem_of_cons in Hin as [?|Hin]; [done|]).
    by apply elem_of_nil in Hin.
  - apply find_plugin_inv in Hfind.
    destruct (new_plugin_entry_obj g bc e) as [obj|] eqn:Hobj; try discriminate.
    intros [= <- _]. exists (items ++ [obj]). split; [done|].
    eapply unique_guids_snoc; [by eapply new_plugin_entry_obj_guid| |done].
    eapply Forall_impl; [exact Hfind|]. by intros x [_ Hx].
Qed.

Lemma upsert_preserves_unique_guids_witness :
  exists items',
    JArr (example_manifest
            ++ [JObj [("category", JStr "Tools"); ("guid", JStr "G2"); ("name", JStr "Foo");
                      ("description", JStr ""); ("owner", JStr "Unknown Owner");
                      ("overview", JStr ""); ("versions", JArr [example_entry])]])
    = JArr items' /\ unique_guids items'.
Proof.
  apply (upsert_preserves_unique_guids "G2" example_build_config example_entry
           example_manifest example_state
           (State (files example_state)
                  ["Plugin with GUID G2 not found. Creating new entry."])).
  - intros i j x y g.
    destruct i as [|[|i]]; destruct j as [|[|j]]; simpl;
      intros Hx Hy Hgx Hgy; simplify_eq/=; done.
  - reflexivity.
Defined.

(** ** The target file *)

Lemma lower_t c : PyStr.ascii_lower c = "t"%char -> c = "t"%char \/ c = "T"%char.
Proof.
  destruct c as [[] [] [] [] [] [] [] []]; vm_compute; intros Hc;
    try discriminate Hc; auto.
Qed.

Lemma lower_r c : PyStr.ascii_lower c = "r"%char -> c = "r"%char \/ c = "R"%char.
Proof.
  destruct c as [[] [] [] [] [] [] [] []]; vm_compute; intros Hc;
    try discriminate Hc; auto.
Qed.

Lemma lower_u c : PyStr.ascii_lower c = "u"%char -> c = "u"%char \/ c = "U"%char.
Proof.
  destruct c as [[] [] [] [] [] [] [] []]; vm_compute; intros Hc;
    try discriminate Hc; auto.
Qed.

Lemma lower_e c : PyStr.ascii_lower c = "e"%char -> c = "e"%char \/ c = "E"%char.
Proof.
  destruct c as [[] [] [] [] [] [] [] []]; vm_compute; intros Hc;
    try discriminate Hc; auto.
Qed.

Lemma lower_true s : PyStr.lower s = "true" <-> equal_ignoring_case s "true".
Proof.
  unfold equal_ignoring_case. split.
  - destruct s as [|c1 [|c2 [|c3 [|c4 [|c5 s]]]]]; simpl; try discriminate.
    intros [= H1 H2 H3 H4].
    apply lower_t in H1. apply lower_r in H2. apply lower_u in H3. apply lower_e in H4.
    apply list_elem_of_In.
    destruct H1 as [-> | ->], H2 as [-> | ->], H3 as [-> | ->], H4 as [-> | ->];
      vm_compute; tauto.
  - intros Hin. apply list_elem_of_In in Hin. vm_compute in Hin.
    repeat (destruct Hin as [<- | Hin]; [reflexivity|]). destruct Hin.
Qed.

(** C6. The target is manifest-prerelease.json exactly when the value
    of IS_PRERELEASE (the text false when the variable is absent) is
    the word true in some mix of upper and lower case, and
    manifest.json for every other value, an absent variable included. *)
Theorem target_filename_prerelease (env : gmap string string) :
  (target_filename env = "manifest-prerelease.json"
   <-> equal_ignoring_case (default "false" (env !! "IS_PRERELEASE")) "true")
  /\ (~ equal_ignoring_case (default "false" (env !! "IS_PRERELEASE")) "true"
      -> target_filename env = "manifest.json")
  /\ (env !! "IS_PRERELEASE" = None -> target_filename env = "manifest.json").
Proof.
  unfold target_filename, is_prerelease.
  destruct (String.eqb (PyStr.lower (default "false" (env !! "IS_PRERELEASE"))) "true")
    eqn:E.
  - apply String.eqb_eq in E. split; [|split].
    + split; [intros _; by apply lower_true | done].
    + intros Hne. exfalso. by apply Hne, lower_true.
    + intros Hnone. rewrite Hnone in E. discriminate E.
  - apply String.eqb_neq in E. split; [|split]; [|done..].
    split; [discriminate|]. intros Heq. exfalso. by apply E, lower_true.
Qed.

Lemma target_filename_prerelease_witness :
  target_filename {[ "IS_PRERELEASE" := "TrUe" ]} = "manifest-prerelease.json"
  /\ target_filename {[ "IS_PRERELEASE" := "yes" ]} = "manifest.json"
  /\ target_filename (∅ : gmap string string) = "manifest.json".
Proof.
  split; [|split].
  - destruct (target_filename_prerelease {[ "IS_PRERELEASE" := "TrUe" ]}) as [Hiff _].
    apply Hiff, lower_true. reflexivity.
  - destruct (target_filename_prerelease {[ "IS_PRERELEASE" := "yes" ]}) as (_ & Hother & _).
    apply Hother. intros Hin. apply lower_true in Hin. discriminate Hin.
  - destruct (target_filename_prerelease ∅) as (_ & _ & Habsent).
    apply Habsent. reflexivity.
Defined.

(** ** The run up to the checks *)

Lemma exists_true (st : state) path text :
  files st !! path = Some text -> bool_decide (is_Some (files st !! path)) = true.
Proof. intros ->. by apply bool_decide_eq_true_2. Qed.

Lemma main_checked `{Library} w st guid bc tag art cs version :
  checked_inputs w st guid bc tag art cs ->
  version_str bc tag = Ok version ->
  main w st = publish w guid bc tag version art (PyStr.strip cs) (logged st (preamble w)).
Proof.
  intros [Hguid (text & Hfile & Hyaml) Htag Hart Hcs] Hversion.
  unfold main, bind, print, required, read_file, lift, ret, path_exists; simpl.
  rewrite Hguid; simpl. rewrite Hfile, Hyaml; simpl.
  rewrite Htag, Hversion, Hart; simpl.
  rewrite (exists_true _ _ _ Hcs); simpl. rewrite Hcs.
  unfold logged, preamble. by rewrite <- !app_assoc.
Qed.

(** A run whose inputs fail a check raises and leaves every file as
    it was. *)
Lemma main_unchecked `{Library} w st :
  truthy (environ w !! "PLUGIN_GUID") = None
  \/ truthy (environ w !! "GITHUB_REF_NAME") = None
  \/ truthy (environ w !! "ARTIFACT_NAME") = None
  \/ files st !! checksum_file = None ->
  exists e st', main w st = (Raise e, st') /\ files st' = files st.
Proof.
  intros Hbad.
  unfold main; run_script.
  destruct (truthy (environ w !! "PLUGIN_GUID")) as [guid|] eqn:Hguid; simpl;
    [|by eauto].
  destruct (files st !! build_file) as [text|] eqn:Hfile; simpl; [|by eauto].
  destruct (yaml_safe_load text) as [bc|]; simpl; [|by eauto].
  destruct (truthy (environ w !! "GITHUB_REF_NAME")) as [tag|] eqn:Htag; simpl;
    [|by eauto].
  destruct (version_str bc tag) as [version|]; simpl; [|by eauto].
  destruct (truthy (environ w !! "ARTIFACT_NAME")) as [art|] eqn:Hart; simpl;
    [|by eauto].
  destruct (files st !! checksum_file) as [cs|] eqn:Hcs.
  - destruct Hbad as [?|[?|[?|?]]]; discriminate.
  - rewrite bool_decide_eq_false_2 by (by intros [? ?]). simpl. by eauto.
Qed.

(** C7. When PLUGIN_GUID, GITHUB_REF_NAME or ARTIFACT_NAME is missing,
    or the checksum file does not exist, the run ends in an exception
    and no file has been written: the manifest on disk is what it
    was. *)
Theorem missing_input_halts_before_write `{Library} (w : world) (st : state) :
  environ w !! "PLUGIN_GUID" = None
  \/ environ w !! "GITHUB_REF_NAME" = None
  \/ environ w !! "ARTIFACT_NAME" = None
  \/ files st !! checksum_file = None ->
  exists e st',
    main w st = (Raise e, st')
    /\ files st' = files st
    /\ files st' !! manifest_file (environ w) = files st !! manifest_file (environ w).
Proof.
  intros Hmiss.
  destruct (main_unchecked w st) as (e & st' & Hrun & Hfiles).
  { destruct Hmiss as [Hm|[Hm|[Hm|Hm]]]; rewrite ?Hm; auto. }
  exists e, st'. by rewrite Hfiles.
Qed.

Lemma missing_input_halts_before_write_witness :
  exists e st',
    @main example_library
      (with_environ example_world (delete "ARTIFACT_NAME" (environ example_world)))
      example_state = (Raise e, st')
    /\ files st' = files example_state
    /\ files st' !! manifest_file (delete "ARTIFACT_NAME" (environ example_world))
       = files example_state !! manifest_file (delete "ARTIFACT_NAME" (environ example_world)).
Proof.
  pose proof (@missing_input_halts_before_write example_library
                (with_environ example_world
                   (delete "ARTIFACT_NAME" (environ example_world)))
                example_state) as Hrun.
  cbn [environ with_environ] in Hrun. apply Hrun.
  right; right; left. vm_compute. reflexivity.
Defined.

(** ** Empty inputs *)

Lemma is_prerelease_insert (env : gmap string string) k v :
  k <> "IS_PRERELEASE" -> is_prerelease (<[k := v]> env) = is_prerelease env.
Proof. intros Hk. unfold is_prerelease. by rewrite lookup_insert_ne. Qed.

Lemma is_prerelease_delete (env : gmap string string) k :
  k <> "IS_PRERELEASE" -> is_prerelease (delete k env) = is_prerelease env.
Proof. intros Hk. unfold is_prerelease. by rewrite lookup_delete_ne. Qed.

Lemma main_empty_eq_unset `{Library} w st k :
  k ∈ required_inputs ->
  main (with_environ w (<[k := ""]> (environ w))) st
  = main (with_environ w (delete k (environ w))) st.
Proof.
  intros Hk. unfold required_inputs in Hk.
  unfold main, target_filename; cbn [environ with_environ].
  repeat (apply elem_of_cons in Hk as [->|Hk]);
    [| | |by apply elem_of_nil in Hk];
    rewrite is_prerelease_insert, is_prerelease_delete by done;
    rewrite ?lookup_insert_eq, ?lookup_delete_eq;
    rewrite ?lookup_insert_ne, ?lookup_delete_ne by done;
    run_script.
  - reflexivity.
  - destruct (truthy (environ w !! "PLUGIN_GUID")); simpl; [|done].
    destruct (files st !! build_file); simpl; [|done].
    by destruct (yaml_safe_load _).
  - destruct (truthy (environ w !! "PLUGIN_GUID")); simpl; [|done].
    destruct (files st !! build_file); simpl; [|done].
    destruct (yaml_safe_load _); simpl; [|done].
    destruct (truthy (environ w !! "GITHUB_REF_NAME")); simpl; [|done].
    by destruct (version_str _ _).
Qed.

(** C9. For PLUGIN_GUID, GITHUB_REF_NAME and ARTIFACT_NAME alike, the
    run with the variable set to the empty string ends exactly as the
    run with the variable unset: the same exception after the same
    printed lines, with no file written.  For PLUGIN_GUID that
    exception is the script's own missing-variable error. *)
Theorem empty_input_is_missing `{Library} (w : world) (st : state) (k : string) :
  k ∈ required_inputs ->
  main (with_environ w (<[k := ""]> (environ w))) st
  = main (with_environ w (delete k (environ w))) st
  /\ is_ok (fst (main (with_environ w (<[k := ""]> (environ w))) st)) = false
  /\ files (snd (main (with_environ w (<[k := ""]> (environ w))) st)) = files st
  /\ (k = "PLUGIN_GUID" ->
      fst (main (with_environ w (<[k := ""]> (environ w))) st)
      = Raise (ValueError "Environment variable PLUGIN_GUID is missing")).
Proof.
  intros Hk. split; [by apply main_empty_eq_unset|].
  destruct (main_unchecked (with_environ w (<[k := ""]> (environ w))) st)
    as (e & st' & Hrun & Hfiles).
  { cbn [environ with_environ]. unfold required_inputs in Hk.
    repeat (apply elem_of_cons in Hk as [->|Hk]);
      [| | |by apply elem_of_nil in Hk]; rewrite lookup_insert_eq; auto. }
  rewrite Hrun. repeat split; try done.
  intros ->. revert Hrun.
  unfold main, bind, print, required, raise; cbn [environ with_environ].
  rewrite lookup_insert_eq. simpl. by intros [= <- _].
Qed.

Lemma empty_input_is_missing_witness :
  @main example_library
    (with_environ example_world (<["GITHUB_REF_NAME" := ""]> (environ example_world)))
    example_state
  = @main example_library
      (with_environ example_world (delete "GITHUB_REF_NAME" (environ example_world)))
      example_state
  /\ is_ok (fst (@main example_library
                   (with_environ example_world
                      (<["GITHUB_REF_NAME" := ""]> (environ example_world)))
                   example_state)) = false.
Proof.
  destruct (@empty_input_is_missing example_library example_world example_state
              "GITHUB_REF_NAME") as (Heq & Hfail & _).
  - unfold required_inputs. apply elem_of_cons. right. apply elem_of_cons. by left.
  - split; [exact Heq | exact Hfail].
Defined.

(** ** Loading the manifest *)

Lemma manifest_data_eq `{Library} path st :
  manifest_data path st =
    match files st !! path with
    | None =>
        (Ok (JArr []),
         logged st ["'" +:+ path +:+ "' does not exist. A new one will be created."])
    | Some text =>
        match json_load text with
        | Ok v => (Ok v, st)
        | Raise JSONDecodeError =>
            (Ok (JArr []),
             logged st ["'" +:+ path +:+ "' is invalid JSON. A new one will be created."])
        | Raise e => (Raise e, st)
        end
    end.
Proof.
  unfold manifest_data, bind, path_exists, read_file, print, ret, raise, logged.
  destruct (files st !! path) as [text|] eqn:Hfile.
  - rewrite bool_decide_eq_true_2 by eauto. rewrite Hfile.
    by destruct (json_load text) as [v|[]].
  - rewrite bool_decide_eq_false_2 by (by intros [? ?]). done.
Qed.




(** ** The new version entry *)

(** C4. Whatever the repository slug, the tag and the artifact name,
    the new version entry is built and its sourceUrl is the text
    https://github.com/, the slug, /releases/download/, the tag, a
    slash and the artifact name; for acme/plugin, v2.0.0 and
    plugin.zip it is the URL of the specification. *)
Theorem source_url_exact (w : world) (bc : dict) (slug tag art cs : string)
    (version : json) :
  (exists entry,
     new_version_entry (with_environ w (<["GITHUB_REPOSITORY" := slug]> (environ w)))
       (JObj bc) tag version art cs = Ok entry
     /\ field entry "sourceUrl"
        = Some (JStr ("https://github.com/" +:+ slug +:+ "/releases/download/"
                        +:+ tag +:+ "/" +:+ art)))
  /\ source_url (Some "acme/plugin") "v2.0.0" "plugin.zip"
     = "https://github.com/acme/plugin/releases/download/v2.0.0/plugin.zip".
Proof.
  split; [|reflexivity].
  unfold new_version_entry; cbn [environ with_environ].
  rewrite lookup_insert_eq. simpl. eexists. split; reflexivity.
Qed.

(** ** The version string *)








(** ** Runs that succeed *)

Lemma find_plugin_total g (bc : dict) e items :
  Forall plugin_entry items -> exists r, find_plugin g (JObj bc) e items = Ok r.
Proof.
  induction 1 as [|x rest [[d ->] [versions Hv]] _ [r IH]]; simpl; [by eauto|].
  simpl in Hv. destruct (eq_str _ g).
  - destruct (update_plugin_ok bc e d versions Hv) as (d' & -> & _). simpl. by eauto.
  - rewrite IH. simpl. by eauto.
Qed.

Lemma upsert_total g (bc : dict) e items st :
  Forall plugin_entry items ->
  exists m' st',
    upsert g (JObj bc) e (JArr items) st = (Ok m', st') /\ files st' = files st.
Proof.
  intros Hwf. destruct (find_plugin_total g bc e items Hwf) as [r Hr].
  unfold upsert, bind, lift, ret, print; simpl. rewrite Hr.
  destruct r as [items'|]; simpl; by eauto.
Qed.

Lemma main_slug_None `{Library} w st :
  environ w !! "GITHUB_REPOSITORY" = None ->
  main w st = main (with_environ w (<["GITHUB_REPOSITORY" := "None"]> (environ w))) st.
Proof.
  intros Hnone.
  unfold main, publish, emit_output, new_version_entry, source_url, manifest_file,
    target_filename, dump_manifest, open_write, append_file;
    cbn [environ with_environ utcnow writable].
  rewrite is_prerelease_insert by done.
  rewrite lookup_insert_eq, Hnone.
  by rewrite !lookup_insert_ne by done.
Qed.

(** ** The scenario of the specification *)

Example scenario_new_plugin :
  let run := @main example_library example_world example_state in
  fst run = Ok tt
  /\ files (snd run) !! "manifest-repo/manifest.json" = Some (example_dump scenario_manifest)
  /\ last (stdout (snd run)) = Some "manifest_version=1.0.0".
Proof. vm_compute. repeat split. Qed.

Example scenario_existing_plugin :
  fst (upsert "G1" example_build_config example_entry (JArr example_manifest) example_state)
  = Ok (JArr [JObj [("guid", JStr "G0"); ("name", JStr "Other"); ("versions", JArr [])];
              JObj [("guid", JStr "G1"); ("name", JStr "Foo");
                    ("versions", JArr [example_entry; JObj [("version", JStr "1.0.0")]]);
                    ("category", JStr "Tools"); ("description", JStr "");
                    ("owner", JStr "Unknown Owner"); ("overview", JStr "")]]).
Proof. reflexivity. Qed.

(** ** The stages of a run *)

Lemma upsert_files g bc e m st : files (snd (upsert g bc e m st)) = files st.
Proof.
  unfold upsert, bind, lift, ret, print.
  destruct (py_iter m) as [items|]; simpl; [|done].
  destruct (find_plugin g bc e items) as [[items'|]|]; simpl; try done.
  destruct (new_plugin_entry_obj g bc e) as [obj|]; simpl; [|done].
  by destruct (py_append m obj).
Qed.

Lemma manifest_data_files `{Library} path st :
  files (snd (manifest_data path st)) = files st.
Proof.
  rewrite manifest_data_eq.
  destruct (files st !! path) as [text|]; [destruct (json_load text) as [v|[]]|]; done.
Qed.

(** The run either stops at a check, with every file as it was, or
    goes on to publish with inputs that passed. *)
Lemma main_stages `{Library} w st :
  (exists e st',
      main w st = (Raise e, st') /\ files st' = files st)
  \/ (exists guid bc tag version art cs,
        checked_inputs w st guid bc tag art cs
        /\ version_str bc tag = Ok version
        /\ main w st
           = publish w guid bc tag version art (PyStr.strip cs) (logged st (preamble w))).
Proof.
  destruct (truthy (environ w !! "PLUGIN_GUID")) as [guid|] eqn:Hguid;
    [|left; unfold main; run_script; rewrite Hguid; simpl; by eauto].
  destruct (files st !! build_file) as [text|] eqn:Hfile;
    [|left; unfold main; run_script; rewrite Hguid; simpl; rewrite Hfile; by eauto].
  destruct (yaml_safe_load text) as [bc|] eqn:Hyaml;
    [|left; unfold main; run_script; rewrite Hguid; simpl; rewrite Hfile, Hyaml;
      by eauto].
  destruct (truthy (environ w !! "GITHUB_REF_NAME")) as [tag|] eqn:Htag;
    [|left; unfold main; run_script; rewrite Hguid; simpl; rewrite Hfile, Hyaml; simpl;
      rewrite Htag; by eauto].
  destruct (version_str bc tag) as [version|e] eqn:Hversion.
  2:{ left. unfold main; run_script. rewrite Hguid; simpl. rewrite Hfile, Hyaml; simpl.
      rewrite Htag; simpl. fold (version_str bc tag). rewrite Hversion. simpl.
      by eauto. }
  destruct (truthy (environ w !! "ARTIFACT_NAME")) as [art|] eqn:Hart;
    [|left; unfold main; run_script; rewrite Hguid; simpl; rewrite Hfile, Hyaml; simpl;
      rewrite Htag; simpl; fold (version_str bc tag); rewrite Hversion; simpl;
      rewrite Hart; by eauto].
  destruct (files st !! checksum_file) as [cs|] eqn:Hcs.
  - right. exists guid, bc, tag, version, art, cs.
    assert (checked_inputs w st guid bc tag art cs) as Hin by (constructor; eauto).
    split; [exact Hin|]. split; [done|]. by apply main_checked.
  - left. unfold main; run_script. rewrite Hguid; simpl. rewrite Hfile, Hyaml; simpl.
    rewrite Htag; simpl. fold (version_str bc tag). rewrite Hversion. simpl.
    rewrite Hart; simpl. rewrite bool_decide_eq_false_2 by (rewrite Hcs; by intros [? ?]).
    by eauto.
Qed.

Lemma emit_output_eq `{Library} w version st :
  emit_output w version st =
    match environ w !! "GITHUB_OUTPUT" with
    | None => (Ok tt, logged st [version_line version])
    | Some path =>
        if writable w path
        then (Ok tt,
              State (<[path := default "" (files st !! path)
                                 +:+ (version_line version +:+ newline)]> (files st))
                    (stdout st ++ [version_line version]))
        else (Raise (OSError path), logged st [version_line version])
    end.
Proof.
  unfold emit_output, bind, print, append_file, ret, logged, version_line; simpl.
  destruct (environ w !! "GITHUB_OUTPUT") as [path|]; [|done].
  by destruct (writable w path).
Qed.

Lemma dump_manifest_eq `{Library} w path manifest st :
  dump_manifest w path manifest st =
    if writable w path
    then match snd (json_dump manifest) with
         | None =>
             (Ok tt,
              State (<[path := fst (json_dump manifest)]> (files st))
                    (stdout st ++ ["Successfully wrote to " +:+ path]))
         | Some e =>
             (Raise e, State (<[path := fst (json_dump manifest)]> (files st)) (stdout st))
         end
    else (Raise (OSError path), st).
Proof.
  unfold dump_manifest, bind, open_write, write, print, raise.
  destruct (writable w path); [|done].
  destruct (json_dump manifest) as [text [e|]]; simpl;
    rewrite lookup_insert_eq; simpl; by rewrite insert_insert_eq.
Qed.

Lemma publish_eq `{Library} w guid bc tag version art cs st :
  publish w guid bc tag version art cs st =
    match new_version_entry w bc tag version art cs with
    | Raise e => (Raise e, st)
    | Ok entry =>
        match manifest_data (manifest_file (environ w)) st with
        | (Raise e, st1) => (Raise e, st1)
        | (Ok m, st1) =>
            match upsert guid bc entry m st1 with
            | (Raise e, st2) => (Raise e, st2)
            | (Ok m', st2) =>
                if writable w (manifest_file (environ w))
                then match snd (json_dump m') with
                     | None =>
                         emit_output w version
                           (State (<[manifest_file (environ w) := fst (json_dump m')]>
                                     (files st2))
                                  (stdout st2
                                     ++ ["Successfully wrote to "
                                           +:+ manifest_file (environ w)]))
                     | Some e =>
                         (Raise e,
                          State (<[manifest_file (environ w) := fst (json_dump m')]>
                                   (files st2))
                                (stdout st2))
                     end
                else (Raise (OSError (manifest_file (environ w))), st2)
            end
        end
    end.
Proof.
  unfold publish. unfold bind at 1. unfold lift.
  destruct (new_version_entry w bc tag version art cs) as [entry|]; [|done].
  unfold bind at 1.
  destruct (manifest_data _ st) as [[m|] st1]; [|done].
  unfold bind at 1.
  destruct (upsert guid bc entry m st1) as [[m'|] st2]; [|done].
  unfold bind at 1. rewrite dump_manifest_eq.
  destruct (writable w _); [|done].
  by destruct (snd (json_dump m')).
Qed.

(** X2. A run that ends in an exception has either written nothing, or
    it failed after the manifest was opened for writing.  In that case
    the manifest file holds what [json.dump] wrote, no other file has
    changed, and the exception is the one that stopped the dump or,
    after a dump that came to its end, the error of the pipeline
    output that could not be opened. *)
Theorem failed_run_files `{Library} (w : world) (st st' : state) (e : exn) :
  main w st = (Raise e, st') ->
  files st' = files st
  \/ (writable w (manifest_file (environ w)) = true
      /\ exists manifest,
           files st' = <[manifest_file (environ w) := fst (json_dump manifest)]> (files st)
           /\ (snd (json_dump manifest) = Some e
               \/ (snd (json_dump manifest) = None
                   /\ exists path,
                        e = OSError path
                        /\ environ w !! "GITHUB_OUTPUT" = Some path
                        /\ writable w path = false))).
Proof.
  intros Hrun.
  destruct (main_stages w st) as [(e0 & st0 & Hmain & Hfiles)
                                 |(guid & bc & tag & version & art & cs & _ & _ & Hmain)].
  { rewrite Hmain in Hrun. left. by simplify_eq. }
  rewrite Hmain, publish_eq in Hrun.
  destruct (new_version_entry w bc tag version art (PyStr.strip cs)) as [entry|];
    [|left; by simplify_eq].
  pose proof (manifest_data_files (manifest_file (environ w)) (logged st (preamble w)))
    as Hf1.
  destruct (manifest_data _ _) as [[m|] st1]; simpl in Hf1; [|left; by simplify_eq].
  pose proof (upsert_files guid bc entry m st1) as Hf2.
  destruct (upsert guid bc entry m st1) as [[m'|] st2]; simpl in Hf2;
    [|left; simplify_eq; congruence].
  destruct (writable w (manifest_file (environ w))) eqn:Hw; [|left; simplify_eq; congruence].
  right. split; [done|]. exists m'.
  destruct (snd (json_dump m')) as [e1|] eqn:Hdump.
  - simplify_eq. simpl. split; [congruence|]. by left.
  - rewrite emit_output_eq in Hrun.
    destruct (environ w !! "GITHUB_OUTPUT") as [path|] eqn:Hout; [|by simplify_eq].
    destruct (writable w path) eqn:Hwp; simplify_eq. simpl.
    split; [congruence|]. right. split; [done|]. by exists path.
Qed.

Lemma failed_run_files_witness :
  files (snd (@main example_library_dates example_world example_dated_state))
  = files example_dated_state
  \/ (writable example_world (manifest_file (environ example_world)) = true
      /\ exists manifest,
           files (snd (@main example_library_dates example_world example_dated_state))
           = <[manifest_file (environ example_world)
                 := fst (@json_dump example_library_dates manifest)]>
               (files example_dated_state)
           /\ (snd (@json_dump example_library_dates manifest) = Some TypeError
               \/ (snd (@json_dump example_library_dates manifest) = None
                   /\ exists path,
                        TypeError = OSError path
                        /\ environ example_world !! "GITHUB_OUTPUT" = Some path
                        /\ writable example_world path = false))).
Proof.
  apply (@failed_run_files example_library_dates example_world example_dated_state
           (snd (@main example_library_dates example_world example_dated_state))
           TypeError).
  vm_compute. reflexivity.
Defined.

(** A build config whose version is a date: the dump stops at the date
    with a type error, and the manifest, a valid empty list before the
    run, is left holding the part that was written. *)
Example dated_version_breaks_the_dump :
  let run := @main example_library_dates example_world example_dated_state in
  fst run = Raise TypeError
  /\ files example_dated_state !! "manifest-repo/manifest.json" = Some "[]"
  /\ files (snd run) !! "manifest-repo/manifest.json"
     = Some (fst (example_write
                    (JArr [first_release "G1" [("version", JOpaque "2024-01-01")]
                             (release_entry example_world
                                [("version", JOpaque "2024-01-01")]
                                "v1.0.0" "foo.zip" "abc123")])))
  /\ snd (example_write
            (JArr [first_release "G1" [("version", JOpaque "2024-01-01")]
                     (release_entry example_world [("version", JOpaque "2024-01-01")]
                        "v1.0.0" "foo.zip" "abc123")])) = false.
Proof. vm_compute. repeat split. Qed.



(** ** What a run may write *)

Lemma publish_frame `{Library} w guid bc tag version art cs st path :
  path <> manifest_file (environ w) ->
  environ w !! "GITHUB_OUTPUT" <> Some path ->
  files (snd (publish w guid bc tag version art cs st)) !! path = files st !! path.
Proof.
  intros Hm Ho. rewrite publish_eq.
  destruct (new_version_entry w bc tag version art cs) as [entry|]; [|done].
  pose proof (manifest_data_files (manifest_file (environ w)) st) as Hf1.
  destruct (manifest_data _ _) as [[m|] st1]; simpl in Hf1; [|simpl; by rewrite Hf1].
  pose proof (upsert_files guid bc entry m st1) as Hf2.
  destruct (upsert guid bc entry m st1) as [[m'|] st2]; simpl in Hf2;
    [|simpl; by rewrite Hf2, Hf1].
  destruct (writable w (manifest_file (environ w))); [|simpl; by rewrite Hf2, Hf1].
  destruct (snd (json_dump m')) as [e|].
  { simpl. rewrite lookup_insert_ne by congruence. by rewrite Hf2, Hf1. }
  rewrite emit_output_eq.
  destruct (environ w !! "GITHUB_OUTPUT") as [out|] eqn:Hout; simpl.
  - destruct (writable w out); simpl.
    + rewrite lookup_insert_ne by congruence.
      rewrite lookup_insert_ne by congruence. by rewrite Hf2, Hf1.
    + rewrite lookup_insert_ne by congruence. by rewrite Hf2, Hf1.
  - rewrite lookup_insert_ne by congruence. by rewrite Hf2, Hf1.
Qed.

(** X3. Whatever the run does, it changes no file but the target
    manifest and the file GITHUB_OUTPUT names: every other path holds
    after the run what it held before. *)
Theorem main_touches_two_paths `{Library} (w : world) (st : state) (path : string) :
  path <> manifest_file (environ w) ->
  environ w !! "GITHUB_OUTPUT" <> Some path ->
  files (snd (main w st)) !! path = files st !! path.
Proof.
  intros Hm Ho.
  destruct (main_stages w st) as [(e0 & st0 & Hmain & Hfiles)
                                 |(guid & bc & tag & version & art & cs & _ & _ & Hmain)].
  - rewrite Hmain. simpl. by rewrite Hfiles.
  - rewrite Hmain. by rewrite publish_frame.
Qed.

Lemma main_touches_two_paths_witness :
  files (snd (@main example_library example_world example_state)) !! "checksum.txt"
  = files example_state !! "checksum.txt".
Proof.
  apply (@main_touches_two_paths example_library example_world example_state
           "checksum.txt").
  - vm_compute. discriminate.
  - vm_compute. discriminate.
Defined.

(** X4. The two channels are kept apart: a prerelease run leaves the
    stable manifest as it was, and a stable run leaves the prerelease
    manifest as it was, unless GITHUB_OUTPUT names that very file. *)
Theorem other_channel_untouched `{Library} (w : world) (st : state) :
  (is_prerelease (environ w) = true ->
   environ w !! "GITHUB_OUTPUT" <> Some "manifest-repo/manifest.json" ->
   files (snd (main w st)) !! "manifest-repo/manifest.json"
   = files st !! "manifest-repo/manifest.json")
  /\ (is_prerelease (environ w) = false ->
      environ w !! "GITHUB_OUTPUT" <> Some "manifest-repo/manifest-prerelease.json" ->
      files (snd (main w st)) !! "manifest-repo/manifest-prerelease.json"
      = files st !! "manifest-repo/manifest-prerelease.json").
Proof.
  assert (forall path,
            path <> manifest_file (environ w) ->
            environ w !! "GITHUB_OUTPUT" <> Some path ->
            files (snd (main w st)) !! path = files st !! path) as Hframe.
  { intros path Hm Ho.
    destruct (main_stages w st) as [(e0 & st0 & Hmain & Hfiles)
                                   |(guid & bc & tag & version & art & cs & _ & _ & Hmain)].
    - rewrite Hmain. simpl. by rewrite Hfiles.
    - rewrite Hmain. by rewrite publish_frame. }
  split; intros Hpre Ho; apply Hframe; try done;
    unfold manifest_file, target_filename; rewrite Hpre; vm_compute; discriminate.
Qed.

Lemma other_channel_untouched_witness :
  files (snd (@main example_library
                (with_environ example_world
                   (<["IS_PRERELEASE" := "True"]> (environ example_world)))
                (State (<["manifest-repo/manifest.json" := "[]"]> (files example_state)) [])))
    !! "manifest-repo/manifest.json"
  = Some "[]".
Proof.
  pose proof (@other_channel_untouched example_library
                (with_environ example_world
                   (<["IS_PRERELEASE" := "True"]> (environ example_world)))
                (State (<["manifest-repo/manifest.json" := "[]"]> (files example_state)) []))
    as [Hpre _].
  rewrite Hpre.
  - vm_compute. reflexivity.
  - vm_compute. reflexivity.
  - vm_compute. discriminate.
Defined.

(** ** Runs that publish *)

Lemma manifest_data_loaded `{Library} w st :
  exists st1,
    manifest_data (manifest_file (environ w)) st = (loaded_manifest w st, st1)
    /\ files st1 = files st.
Proof.
  rewrite manifest_data_eq. unfold loaded_manifest.
  destruct (files st !! manifest_file (environ w)) as [text|];
    [destruct (json_load text) as [v|[]]|]; by eauto.
Qed.

Lemma upsert_fst g bc e m st1 st2 :
  fst (upsert g bc e m st1) = fst (upsert g bc e m st2).
Proof.
  unfold upsert, bind, lift, ret, print.
  destruct (py_iter m) as [items|]; simpl; [|done].
  destruct (find_plugin g bc e items) as [[items'|]|]; simpl; try done.
  destruct (new_plugin_entry_obj g bc e) as [obj|]; simpl; [|done].
  by destruct (py_append m obj).
Qed.

(** On a list of plugin entries the upsert returns a list of plugin
    entries in which the GUID occurs. *)
Lemma upsert_plugin_entries g (bc : dict) e items st :
  Forall plugin_entry items ->
  exists items' st',
    upsert g (JObj bc) e (JArr items) st = (Ok (JArr items'), st')
    /\ Forall plugin_entry items'
    /\ Exists (has_guid g) items'.
Proof.
  intros Hwf. destruct (find_plugin_total g bc e items Hwf) as [r Hr].
  unfold upsert, bind, lift, ret, print; simpl. rewrite Hr.
  apply find_plugin_inv in Hr. destruct r as [items'|]; simpl.
  - destruct Hr as (pre & p & p' & post & -> & -> & _ & Hp & Hup).
    exists (pre ++ JObj p' :: post). eexists. split; [done|].
    apply Forall_app in Hwf as [Hwf_pre Hwf_p].
    apply Forall_cons in Hwf_p as [[_ [versions Hv]] Hwf_post]. simpl in Hv.
    destruct (update_plugin_ok bc e p versions Hv) as (p0 & Hup0 & _ & _ & _ & _ & _ & Hvs & Hkeep).
    rewrite Hup in Hup0. injection Hup0 as <-.
    split.
    + apply Forall_app. split; [done|]. apply Forall_cons. split; [|done].
      split; [by eexists|]. by exists (e :: versions).
    + apply Exists_app. right. apply Exists_cons_hd. unfold has_guid in *. simpl in *.
      rewrite Hkeep; [done|]. unfold assigned_keys. intros Hin.
      repeat (apply elem_of_cons in Hin as [?|Hin]; [done|]).
      by apply elem_of_nil in Hin.
  - eexists. eexists. split; [done|]. split.
    + apply Forall_app. split; [done|]. apply Forall_cons. split; [|done].
      split; [by eexists|]. by exists [e].
    + apply Exists_app. right. by apply Exists_cons_hd.
Qed.

(** What the run loads as its manifest has a JSON form. *)
Lemma loaded_manifest_plain `{Library} w st m :
  loaded_manifest w st = Ok m -> plain m = true.
Proof.
  unfold loaded_manifest.
  destruct (files st !! manifest_file (environ w)) as [text|]; [|by intros [= <-]].
  destruct (json_load text) as [v|[]] eqn:Hload; intros Hm; simplify_eq; try done.
  by eapply json_load_plain.
Qed.

(** A checked run from the manifest it loaded to the dump. *)
Lemma main_publishes `{Library} w st guid (bc : dict) tag art cs m m' :
  checked_inputs w st guid (JObj bc) tag art cs ->
  loaded_manifest w st = Ok m ->
  fst (upsert guid (JObj bc) (release_entry w bc tag art cs) m st) = Ok m' ->
  exists st2,
    main w st =
      if writable w (manifest_file (environ w))
      then match snd (json_dump m') with
           | None =>
               emit_output w (released_version bc tag)
                 (State (<[manifest_file (environ w) := fst (json_dump m')]> (files st))
                        (stdout st2
                           ++ ["Successfully wrote to " +:+ manifest_file (environ w)]))
           | Some e =>
               (Raise e,
                State (<[manifest_file (environ w) := fst (json_dump m')]> (files st))
                      (stdout st2))
           end
      else (Raise (OSError (manifest_file (environ w))), st2).
Proof.
  intros Hin Hload Hup.
  rewrite (main_checked w st guid (JObj bc) tag art cs (released_version bc tag) Hin eq_refl).
  rewrite publish_eq.
  change (new_version_entry w (JObj bc) tag (released_version bc tag) art (PyStr.strip cs))
    with (Ok (release_entry w bc tag art cs)).
  destruct (manifest_data_loaded w (logged st (preamble w))) as (st1 & -> & Hf1).
  change (loaded_manifest w (logged st (preamble w))) with (loaded_manifest w st).
  rewrite Hload.
  pose proof (upsert_files guid (JObj bc) (release_entry w bc tag art cs) m st1) as Hf2.
  rewrite (upsert_fst _ _ _ _ st st1) in Hup.
  destruct (upsert guid (JObj bc) (release_entry w bc tag art cs) m st1) as [r st2].
  simpl in Hup, Hf2. subst r. exists st2. by rewrite Hf2, Hf1.
Qed.

(** Discharges [checked_inputs] on the example worlds. *)
Ltac check_example :=
  constructor;
  [ vm_compute; reflexivity
  | exists example_build_yaml; split; vm_compute; reflexivity
  | vm_compute; reflexivity .. ].





(** X7. The pipeline output is written after the manifest.  In a
    checked run whose manifest loads, on which the upsert returns and
    the dump comes to its end, when the file GITHUB_OUTPUT names cannot
    be opened the run ends in that error, yet the manifest file
    already holds the new dump; no other file has changed. *)
Theorem output_failure_follows_the_write `{Library} (w : world) (st : state)
    (guid : string) (bc : dict) (tag art cs : string) (m m' : json)
    (text path : string) :
  checked_inputs w st guid (JObj bc) tag art cs ->
  loaded_manifest w st = Ok m ->
  fst (upsert guid (JObj bc) (release_entry w bc tag art cs) m st) = Ok m' ->
  json_dump m' = (text, None) ->
  writable w (manifest_file (environ w)) = true ->
  environ w !! "GITHUB_OUTPUT" = Some path ->
  writable w path = false ->
  exists st',
    main w st = (Raise (OSError path), st')
    /\ files st' = <[manifest_file (environ w) := text]> (files st).
Proof.
  intros Hin Hload Hup Hdump Hwm Hout Hlocked.
  destruct (main_publishes w st guid bc tag art cs m m' Hin Hload Hup) as (st2 & ->).
  rewrite Hwm, Hdump. simpl. rewrite emit_output_eq, Hout, Hlocked.
  eexists. by split.
Qed.

Lemma output_failure_follows_the_write_witness :
  exists st',
    @main example_library (example_world_locked "out.txt") example_state
    = (Raise (OSError "out.txt"), st')
    /\ files st'
       = <[manifest_file (environ (example_world_locked "out.txt"))
             := example_dump
                  (JArr [first_release "G1"
                           [("name", JStr "Foo"); ("category", JStr "Tools")]
                           (release_entry (example_world_locked "out.txt")
                              [("name", JStr "Foo"); ("category", JStr "Tools")]
                              "v1.0.0" "foo.zip" ("abc123" +:+ newline))])]>
           (files example_state).
Proof.
  pose proof (@output_failure_follows_the_write example_library
                (example_world_locked "out.txt") example_state
                "G1" [("name", JStr "Foo"); ("category", JStr "Tools")]
                "v1.0.0" "foo.zip" ("abc123" +:+ newline) (JArr [])
                (JArr [first_release "G1"
                         [("name", JStr "Foo"); ("category", JStr "Tools")]
                         (release_entry (example_world_locked "out.txt")
                            [("name", JStr "Foo"); ("category", JStr "Tools")]
                            "v1.0.0" "foo.zip" ("abc123" +:+ newline))])
                (example_dump
                   (JArr [first_release "G1"
                            [("name", JStr "Foo"); ("category", JStr "Tools")]
                            (release_entry (example_world_locked "out.txt")
                               [("name", JStr "Foo"); ("category", JStr "Tools")]
                               "v1.0.0" "foo.zip" ("abc123" +:+ newline))]))
                "out.txt") as Hlate.
  apply Hlate.
  - check_example.
  - vm_compute. reflexivity.
  - vm_compute. reflexivity.
  - vm_compute. reflexivity.
  - vm_compute. reflexivity.
  - vm_compute. reflexivity.
  - vm_compute. reflexivity.
Defined.

(** ** Manifests the loop cannot handle *)

Lemma upsert_non_list g (bc : dict) e m st :
  (forall items, m <> JArr items) ->
  exists x,
    upsert g (JObj bc) e m st = (Raise x, snd (upsert g (JObj bc) e m st))
    /\ (x = AttributeError \/ x = TypeError).
Proof.
  intros Hm. unfold upsert, bind, lift, ret, print.
  destruct m as [| | | |s|items|d|]; simpl; try by eauto.
  - destruct s; simpl; by eauto.
  - by destruct (Hm items).
  - destruct d as [|[k v] d]; simpl; by eauto.
Qed.

(** X8. A target manifest that parses but is not a list (an object, a
    string, a number, null) stops a checked run with an attribute or
    type error before anything is written: the file stays as it is,
    it is not replaced as an unparsable one would be. *)
Theorem non_list_manifest_stops_the_run `{Library} (w : world) (st : state)
    (guid : string) (bc : dict) (tag art cs text : string) (m : json) :
  checked_inputs w st guid (JObj bc) tag art cs ->
  files st !! manifest_file (environ w) = Some text ->
  json_load text = Ok m ->
  (forall items, m <> JArr items) ->
  exists x st',
    main w st = (Raise x, st')
    /\ (x = AttributeError \/ x = TypeError)
    /\ files st' = files st.
Proof.
  intros Hin Hfile Hparse Hm.
  rewrite (main_checked w st guid (JObj bc) tag art cs (released_version bc tag) Hin eq_refl).
  rewrite publish_eq.
  change (new_version_entry w (JObj bc) tag (released_version bc tag) art (PyStr.strip cs))
    with (Ok (release_entry w bc tag art cs)).
  destruct (manifest_data_loaded w (logged st (preamble w))) as (st1 & -> & Hf1).
  change (loaded_manifest w (logged st (preamble w))) with (loaded_manifest w st).
  unfold loaded_manifest. rewrite Hfile, Hparse. simpl.
  destruct (upsert_non_list guid bc (release_entry w bc tag art cs) m st1 Hm)
    as (x & Hup & Hx).
  pose proof (upsert_files guid (JObj bc) (release_entry w bc tag art cs) m st1) as Hf2.
  rewrite Hup. exists x. eexists. split; [reflexivity|]. split; [done|].
  by rewrite Hf2, Hf1.
Qed.

Lemma non_list_manifest_stops_the_run_witness :
  exists x st',
    @main example_library_objects example_world
      (State (<["manifest-repo/manifest.json" := "{}"]> (files example_state)) [])
    = (Raise x, st')
    /\ (x = AttributeError \/ x = TypeError)
    /\ files st' = <["manifest-repo/manifest.json" := "{}"]> (files example_state).
Proof.
  pose proof (@non_list_manifest_stops_the_run example_library_objects example_world
                (State (<["manifest-repo/manifest.json" := "{}"]> (files example_state)) [])
                "G1" [("name", JStr "Foo"); ("category", JStr "Tools")]
                "v1.0.0" "foo.zip" ("abc123" +:+ newline) "{}" (JObj [])) as Hstop.
  cbn [files] in Hstop. apply Hstop.
  - check_example.
  - vm_compute. reflexivity.
  - vm_compute. reflexivity.
  - intros items Hitems. discriminate Hitems.
Defined.

Lemma find_plugin_skip_raise g bc e pre rest x :
  Forall (other_plugin g) pre ->
  find_plugin g bc e rest = Raise x ->
  find_plugin g bc e (pre ++ rest) = Raise x.
Proof.
  intros Hpre Hrest. induction Hpre as [|y r [[d ->] Hy] _ IH]; simpl; [done|].
  apply matches_false in Hy. simpl in Hy. by rewrite Hy, IH.
Qed.

(** X9. What stops the loop.  After entries that are objects with
    other guids, an entry that is not an object raises an attribute
    error; the entry with the GUID raises a key error when it has no
    versions, and an attribute error when its versions is not a list.
    In each case the upsert prints nothing and returns no manifest. *)
Theorem upsert_malformed_entry (g : string) (bc : dict) (e : json)
    (pre post : list json) (x : json) (st : state) :
  Forall (other_plugin g) pre ->
  (~ is_object x ->
   upsert g (JObj bc) e (JArr (pre ++ x :: post)) st = (Raise AttributeError, st))
  /\ (has_guid g x -> field x "versions" = None ->
      upsert g (JObj bc) e (JArr (pre ++ x :: post)) st = (Raise (KeyError "versions"), st))
  /\ (forall v, has_guid g x -> field x "versions" = Some v ->
      (forall l, v <> JArr l) ->
      upsert g (JObj bc) e (JArr (pre ++ x :: post)) st = (Raise AttributeError, st)).
Proof.
  intros Hpre.
  assert (forall err, find_plugin g (JObj bc) e (x :: post) = Raise err ->
            upsert g (JObj bc) e (JArr (pre ++ x :: post)) st = (Raise err, st)) as Hstop.
  { intros err Herr. unfold upsert, bind, lift; simpl.
    by rewrite (find_plugin_skip_raise g (JObj bc) e pre (x :: post) err Hpre Herr). }
  split; [|split].
  - intros Hx. apply Hstop. destruct x; simpl; try done. destruct Hx. by eexists.
  - intros Hg Hv. apply Hstop. apply matches_has_guid in Hg.
    destruct x as [| | | | | |d|]; simpl in *; try done.
    rewrite Hg. unfold update_plugin; simpl.
    rewrite !dict_get_set_ne by done. by rewrite Hv.
  - intros v Hg Hv Hlist. apply Hstop. apply matches_has_guid in Hg.
    destruct x as [| | | | | |d|]; simpl in *; try done.
    rewrite Hg. unfold update_plugin; simpl.
    rewrite !dict_get_set_ne by done. rewrite Hv.
    destruct v; try done. by destruct (Hlist items).
Qed.

Lemma upsert_malformed_entry_witness :
  upsert "G1" example_build_config example_entry
    (JArr ([JObj [("guid", JStr "G0"); ("versions", JArr [])]]
             ++ JObj [("guid", JStr "G1"); ("name", JStr "Old name")] :: []))
    example_state
  = (Raise (KeyError "versions"), example_state).
Proof.
  destruct (upsert_malformed_entry "G1" [("name", JStr "Foo"); ("category", JStr "Tools")]
              example_entry [JObj [("guid", JStr "G0"); ("versions", JArr [])]] []
              (JObj [("guid", JStr "G1"); ("name", JStr "Old name")]) example_state)
    as (_ & Hkey & _).
  - repeat constructor; [by eexists | unfold has_guid; simpl; congruence].
  - apply Hkey; reflexivity.
Defined.

(** X10. The upsert keeps the manifest usable.  On a list of plugin
    entries it always returns a list of plugin entries, one of which
    has the GUID, of the same length or one longer, and no file is
    touched: the next release can load what this one wrote. *)
Theorem upsert_keeps_manifest_usable (g : string) (bc : dict) (e : json)
    (items : list json) (st : state) :
  Forall plugin_entry items ->
  exists items' st',
    upsert g (JObj bc) e (JArr items) st = (Ok (JArr items'), st')
    /\ Forall plugin_entry items'
    /\ Exists (has_guid g) items'
    /\ (length items' = length items \/ length items' = S (length items))
    /\ files st' = files st.
Proof.
  intros Hwf.
  destruct (upsert_plugin_entries g bc e items st Hwf) as (items' & st' & Hup & Hwf' & Hex).
  exists items', st'. repeat split; try done.
  - revert Hup. unfold upsert, bind, lift, ret, print; simpl.
    destruct (find_plugin g (JObj bc) e items) as [[l|]|] eqn:Hfind; simpl; try done.
    + intros [= <- _]. left. apply find_plugin_inv in Hfind
        as (pre & p & p' & post & -> & -> & _).
      by rewrite !length_app.
    + intros [= <- _]. right. rewrite length_app. simpl. lia.
  - pose proof (upsert_files g (JObj bc) e (JArr items) st) as Hf. by rewrite Hup in Hf.
Qed.

Lemma upsert_keeps_manifest_usable_witness :
  exists items' st',
    upsert "G1" example_build_config example_entry (JArr example_manifest) example_state
    = (Ok (JArr items'), st')
    /\ Forall plugin_entry items'
    /\ Exists (has_guid "G1") items'
    /\ (length items' = length example_manifest \/ length items' = S (length example_manifest))
    /\ files st' = files example_state.
Proof.
  apply (upsert_keeps_manifest_usable "G1" [("name", JStr "Foo"); ("category", JStr "Tools")]
           example_entry example_manifest example_state).
  repeat constructor; unfold is_object; simpl; eauto.
Defined.

(** ** Releases in a row *)

(** The two ways the upsert goes on a list of plugin entries. *)
Lemma upsert_cases g (bc : dict) e items st :
  Forall plugin_entry items ->
  (exists pre p versions p' post,
      items = pre ++ JObj p :: post
      /\ Forall (other_plugin g) pre
      /\ has_guid g (JObj p)
      /\ dict_get p "versions" = Some (JArr versions)
      /\ dict_get p' "versions" = Some (JArr (e :: versions))
      /\ has_guid g (JObj p')
      /\ (forall k dflt, (k, dflt) ∈ metadata_defaults ->
            dict_get p' k = Some (config_value bc k dflt))
      /\ upsert g (JObj bc) e (JArr items) st = (Ok (JArr (pre ++ JObj p' :: post)), st))
  \/ (Forall (other_plugin g) items
      /\ upsert g (JObj bc) e (JArr items) st
         = (Ok (JArr (items ++ [first_release g bc e])),
            logged st ["Plugin with GUID " +:+ g +:+ " not found. Creating new entry."])).
Proof.
  intros Hwf. destruct (find_plugin_total g bc e items Hwf) as [r Hr].
  unfold upsert, bind, lift, ret, print; simpl. rewrite Hr.
  apply find_plugin_inv in Hr. destruct r as [items'|]; simpl.
  - left. destruct Hr as (pre & p & p' & post & -> & -> & Hpre & Hp & Hup).
    apply Forall_app in Hwf as [_ Hwf_p].
    apply Forall_cons in Hwf_p as [[_ [versions Hv]] _]. simpl in Hv.
    destruct (update_plugin_ok bc e p versions Hv)
      as (p0 & Hup0 & Hc & Hn & Hd & Ho & Hov & Hvs & Hkeep).
    rewrite Hup in Hup0. injection Hup0 as <-.
    exists pre, p, versions, p', post. repeat split; try done.
    + unfold has_guid in *. simpl in *. rewrite Hkeep; [done|].
      unfold assigned_keys. intros Hin.
      repeat (apply elem_of_cons in Hin as [?|Hin]; [done|]).
      by apply elem_of_nil in Hin.
    + intros k dflt Hin. unfold metadata_defaults in Hin.
      repeat (apply elem_of_cons in Hin as [[= -> ->]|Hin]; [done|]).
      by apply elem_of_nil in Hin.
  - right. by split.
Qed.

(** X11. Two releases of one GUID, one after the other, on a list of
    plugin entries: both upserts succeed, the second finds the entry
    the first left and adds no plugin, and that entry then has the
    second version entry first, the first one second, the older ones
    after them, with the metadata of the second build config. *)
Theorem upsert_twice (g : string) (bc1 bc2 : dict) (e1 e2 : json)
    (items : list json) (st : state) :
  Forall plugin_entry items ->
  exists (items1 items2 : list json) (st1 : state) (i : nat) (p : dict)
         (older : list json),
    upsert g (JObj bc1) e1 (JArr items) st = (Ok (JArr items1), st1)
    /\ upsert g (JObj bc2) e2 (JArr items1) st1 = (Ok (JArr items2), st1)
    /\ length items2 = length items1
    /\ items2 !! i = Some (JObj p)
    /\ has_guid g (JObj p)
    /\ (forall j x, j < i -> items2 !! j = Some x -> ~ has_guid g x)
    /\ dict_get p "versions" = Some (JArr (e2 :: e1 :: older))
    /\ (forall k dflt, (k, dflt) ∈ metadata_defaults ->
          dict_get p k = Some (config_value bc2 k dflt)).
Proof.
  intros Hwf.
  assert (forall pre p1 post st1 older,
            Forall (other_plugin g) pre ->
            has_guid g (JObj p1) ->
            dict_get p1 "versions" = Some (JArr (e1 :: older)) ->
            exists p,
              upsert g (JObj bc2) e2 (JArr (pre ++ JObj p1 :: post)) st1
              = (Ok (JArr (pre ++ JObj p :: post)), st1)
              /\ dict_get p "versions" = Some (JArr (e2 :: e1 :: older))
              /\ has_guid g (JObj p)
              /\ (forall k dflt, (k, dflt) ∈ metadata_defaults ->
                    dict_get p k = Some (config_value bc2 k dflt))) as Hsecond.
  { intros pre p1 post st1 older Hpre Hg Hv.
    destruct (update_plugin_ok bc2 e2 p1 (e1 :: older) Hv)
      as (p & Hup & Hc & Hn & Hd & Ho & Hov & Hvs & Hkeep).
    exists p. repeat split; try done.
    - unfold upsert, bind, lift, ret; simpl.
      by rewrite (find_plugin_first g (JObj bc2) e2 pre p1 p post Hpre Hg Hup).
    - unfold has_guid in *. simpl in *. rewrite Hkeep; [done|].
      unfold assigned_keys. intros Hin.
      repeat (apply elem_of_cons in Hin as [?|Hin]; [done|]).
      by apply elem_of_nil in Hin.
    - intros k dflt Hin. unfold metadata_defaults in Hin.
      repeat (apply elem_of_cons in Hin as [[= -> ->]|Hin]; [done|]).
      by apply elem_of_nil in Hin. }
  assert (forall (pre : list json) j x,
            Forall (other_plugin g) pre -> j < length pre ->
            forall rest, (pre ++ rest) !! j = Some x -> ~ has_guid g x) as Hbefore.
  { intros pre j x Hpre Hj rest Hx. rewrite lookup_app_l in Hx by done.
    by destruct (Forall_lookup_1 _ _ _ _ Hpre Hx). }
  destruct (upsert_cases g bc1 e1 items st Hwf)
    as [(pre & p0 & versions & p1 & post & -> & Hpre & _ & _ & Hv1 & Hg1 & _ & Hup1)
       |[Hnone Hup1]].
  - destruct (Hsecond pre p1 post st versions Hpre Hg1 Hv1) as (p & Hup2 & Hv2 & Hg2 & Hm2).
    exists (pre ++ JObj p1 :: post), (pre ++ JObj p :: post), st, (length pre), p, versions.
    repeat split; try done.
    + by rewrite !length_app.
    + by apply list_lookup_middle.
    + intros j x Hj Hx. by eapply Hbefore.
  - destruct (Hsecond items (fields_of_first_release g bc1 e1) []
                (logged st ["Plugin with GUID " +:+ g +:+ " not found. Creating new entry."])
                [] Hnone eq_refl eq_refl) as (p & Hup2 & Hv2 & Hg2 & Hm2).
    exists (items ++ [first_release g bc1 e1]), (items ++ [JObj p]),
      (logged st ["Plugin with GUID " +:+ g +:+ " not found. Creating new entry."]),
      (length items), p, [].
    repeat split; try done.
    + by rewrite !length_app.
    + by apply list_lookup_middle.
    + intros j x Hj Hx. by eapply Hbefore.
Qed.

Lemma upsert_twice_witness :
  exists (items1 items2 : list json) (st1 : state) (i : nat) (p : dict)
         (older : list json),
    upsert "G1" example_build_config example_entry (JArr example_manifest) example_state
    = (Ok (JArr items1), st1)
    /\ upsert "G1" (JObj []) (JStr "third") (JArr items1) st1 = (Ok (JArr items2), st1)
    /\ length items2 = length items1
    /\ items2 !! i = Some (JObj p)
    /\ has_guid "G1" (JObj p)
    /\ (forall j x, j < i -> items2 !! j = Some x -> ~ has_guid "G1" x)
    /\ dict_get p "versions" = Some (JArr (JStr "third" :: example_entry :: older))
    /\ (forall k dflt, (k, dflt) ∈ metadata_defaults ->
          dict_get p k = Some (config_value [] k dflt)).
Proof.
  apply (upsert_twice "G1" [("name", JStr "Foo"); ("category", JStr "Tools")] []
           example_entry (JStr "third") example_manifest example_state).
  repeat constructor; unfold is_object; simpl; eauto.
Defined.

(** ** The keys of an updated plugin *)

Lemma dict_set_keys_present (d : dict) k v :
  k ∈ dict_keys d -> dict_keys (dict_set d k v) = dict_keys d.
Proof.
  unfold dict_keys. induction d as [|[k' v'] r IH]; simpl.
  - intros Hin. by apply elem_of_nil in Hin.
  - destruct (String.eqb k' k) eqn:E; simpl.
    + apply String.eqb_eq in E. by subst.
    + intros Hin. apply elem_of_cons in Hin as [->|Hin].
      * by rewrite String.eqb_refl in E.
      * by rewrite IH.
Qed.

Lemma dict_set_keys_absent (d : dict) k v :
  k ∉ dict_keys d -> dict_keys (dict_set d k v) = dict_keys d ++ [k].
Proof.
  unfold dict_keys. induction d as [|[k' v'] r IH]; simpl; [done|].
  intros Hk. destruct (String.eqb k' k) eqn:E.
  - apply String.eqb_eq in E. subst. destruct Hk. by left.
  - simpl. rewrite IH; [done|]. intros Hin. apply Hk. by right.
Qed.

Lemma dict_get_in_keys (d : dict) k v : dict_get d k = Some v -> k ∈ dict_keys d.
Proof.
  unfold dict_keys. induction d as [|[k' v'] r IH]; simpl; [done|].
  destruct (String.eqb k' k) eqn:E.
  - apply String.eqb_eq in E. subst. by left.
  - right. by apply IH.
Qed.

(** One assignment, seen from the plugin the branch started with. *)
Lemma keys_step_present (p d : dict) (added : list string) k v :
  dict_keys d = dict_keys p ++ added ->
  k ∈ dict_keys p ->
  dict_keys (dict_set d k v) = dict_keys p ++ added.
Proof.
  intros Hd Hk. rewrite dict_set_keys_present, Hd; [done|].
  rewrite Hd. apply elem_of_app. by left.
Qed.

Lemma keys_step_absent (p d : dict) (added : list string) k v :
  dict_keys d = dict_keys p ++ added ->
  k ∉ dict_keys p ->
  k ∉ added ->
  dict_keys (dict_set d k v) = dict_keys p ++ (added ++ [k]).
Proof.
  intros Hd Hk Ha. rewrite dict_set_keys_absent, Hd; [by rewrite app_assoc|].
  rewrite Hd. intros [Hin|Hin]%elem_of_app; done.
Qed.

(** A run of assignments of distinct keys, seen from the plugin the
    branch started with. *)
Lemma keys_after_sets (p : dict) (ks : list (string * json)) :
  forall (d : dict) (added : list string),
    NoDup (map fst ks) ->
    (forall k, k ∈ added -> k ∉ map fst ks) ->
    dict_keys d = dict_keys p ++ added ->
    dict_keys (fold_left (fun d0 kv => dict_set d0 (fst kv) (snd kv)) ks d)
    = dict_keys p ++ added ++ filter (fun k => k ∉ dict_keys p) (map fst ks).
Proof.
  induction ks as [|[k v] ks IH]; intros d added Hnd Hdisj Hd; simpl.
  - by rewrite filter_nil, app_nil_r.
  - apply NoDup_cons in Hnd as [Hk Hnd].
    assert (k ∉ added) as Hka.
    { intros Hin. apply (Hdisj k Hin). by left. }
    destruct (decide (k ∈ dict_keys p)) as [Hin|Hout].
    + rewrite filter_cons_False by (intros Hn; by apply Hn).
      apply IH; [done| |by apply keys_step_present].
      intros k0 Hk0 Hin0. apply (Hdisj k0 Hk0). by right.
    + rewrite filter_cons_True by done.
      rewrite (IH (dict_set d k v) (added ++ [k]) Hnd).
      * by rewrite <- app_assoc.
      * intros k0 [Hk0|Hk0]%elem_of_app Hin0.
        -- apply (Hdisj k0 Hk0). by right.
        -- apply list_elem_of_singleton in Hk0. by subst.
      * by apply keys_step_absent.
Qed.

(** X12. Updating a plugin never drops or reorders its keys: its keys
    afterwards are the keys it had, in the order they had, followed by
    those of category, name, description, owner and overview it
    lacked, in that order and once each.  So the old keys come first,
    and a plugin that had the five metadata keys keeps exactly its
    keys. *)
Theorem update_plugin_key_order (bc e : json) (p p' : dict) :
  update_plugin bc e p = Ok p' ->
  dict_keys p'
  = dict_keys p ++ filter (fun k => k ∉ dict_keys p) (map fst metadata_defaults)
  /\ dict_keys p `prefix_of` dict_keys p'
  /\ ((forall k dflt, (k, dflt) ∈ metadata_defaults -> k ∈ dict_keys p) ->
      dict_keys p' = dict_keys p).
Proof.
  intros Hup.
  assert (dict_keys p'
          = dict_keys p ++ filter (fun k => k ∉ dict_keys p) (map fst metadata_defaults))
    as Hkeys.
  { revert Hup. unfold update_plugin.
    destruct bc as [| | | | | |d|]; simpl; try discriminate.
    destruct (dict_get _ "versions") as [[| | | | |versions| |]|] eqn:Hv; try discriminate.
    intros [= <-]. apply dict_get_in_keys in Hv.
    rewrite (dict_set_keys_present _ "versions" _ Hv). clear Hv.
    pose proof (keys_after_sets p
                  [("category", default (JStr "General") (dict_get d "category"));
                   ("name", default (JStr "Unknown Plugin") (dict_get d "name"));
                   ("description", default (JStr "") (dict_get d "description"));
                   ("owner", default (JStr "Unknown Owner") (dict_get d "owner"));
                   ("overview", default (JStr "") (dict_get d "overview"))]
                  p []) as Hsets.
    simpl in Hsets. apply Hsets.
    - repeat (apply NoDup_cons; split;
              [intros Hin; repeat (apply elem_of_cons in Hin as [Hin|Hin];
                                   [discriminate Hin|]);
               by apply elem_of_nil in Hin|]).
      apply NoDup_nil_2.
    - intros k Hin. by apply elem_of_nil in Hin.
    - by rewrite app_nil_r. }
  split; [exact Hkeys|]. split.
  - rewrite Hkeys. by eexists.
  - intros Hall. rewrite Hkeys.
    change (map fst metadata_defaults)
      with ["category"; "name"; "description"; "owner"; "overview"].
    rewrite !filter_cons_False, filter_nil, app_nil_r; [done|..];
      intros Hn; apply Hn;
      [ apply (Hall _ "") | apply (Hall _ "Unknown Owner") | apply (Hall _ "")
      | apply (Hall _ "Unknown Plugin") | apply (Hall _ "General") ];
      unfold metadata_defaults;
      repeat first [by apply list_elem_of_here | apply list_elem_of_further].
Qed.

Lemma update_plugin_key_order_witness :
  dict_keys [("guid", JStr "G1"); ("name", JStr "Foo");
             ("versions", JArr [example_entry]); ("category", JStr "Tools");
             ("description", JStr ""); ("owner", JStr "Unknown Owner");
             ("overview", JStr "")]
  = dict_keys [("guid", JStr "G1"); ("name", JStr "Old name"); ("versions", JArr [])]
      ++ filter (fun k => k ∉ dict_keys [("guid", JStr "G1"); ("name", JStr "Old name");
                                         ("versions", JArr [])])
           (map fst metadata_defaults).
Proof.
  apply (update_plugin_key_order example_build_config example_entry
           [("guid", JStr "G1"); ("name", JStr "Old name"); ("versions", JArr [])]).
  reflexivity.
Defined.

(** ** What the run reads *)

(** X13. The run depends on the environment through seven variables
    only: two environments that agree on IS_PRERELEASE, PLUGIN_GUID,
    GITHUB_REF_NAME, RELEASE_BODY, GITHUB_REPOSITORY, ARTIFACT_NAME and
    GITHUB_OUTPUT give the same outcome, the same files and the same
    printed lines. *)
Theorem main_reads_only `{Library} (w : world) (env1 env2 : gmap string string)
    (st : state) :
  (forall k, k ∈ read_variables -> env1 !! k = env2 !! k) ->
  main (with_environ w env1) st = main (with_environ w env2) st.
Proof.
  intros Hagree.
  assert (forall k, k ∈ read_variables -> env1 !! k = env2 !! k) as Hk by done.
  unfold read_variables in Hk.
  pose proof (Hk "IS_PRERELEASE") as H1. pose proof (Hk "PLUGIN_GUID") as H2.
  pose proof (Hk "GITHUB_REF_NAME") as H3. pose proof (Hk "RELEASE_BODY") as H4.
  pose proof (Hk "GITHUB_REPOSITORY") as H5. pose proof (Hk "ARTIFACT_NAME") as H6.
  pose proof (Hk "GITHUB_OUTPUT") as H7.
  unfold main, publish, emit_output, new_version_entry, manifest_file, target_filename,
    is_prerelease, dump_manifest, open_write, append_file;
    cbn [environ with_environ utcnow writable].
  rewrite H1, H2, H3, H4, H5, H6, H7;
    [done|repeat first [by apply list_elem_of_here | apply list_elem_of_further]..].
Qed.

Lemma main_reads_only_witness :
  @main example_library
    (with_environ example_world (<["HOME" := "/root"]> (environ example_world)))
    example_state
  = @main example_library (with_environ example_world (environ example_world))
      example_state.
Proof.
  apply (@main_reads_only example_library example_world
           (<["HOME" := "/root"]> (environ example_world)) (environ example_world)
           example_state).
  intros k Hk. apply lookup_insert_ne. intros <-. revert Hk. unfold read_variables.
  intros Hk. repeat (apply elem_of_cons in Hk as [Hk|Hk]; [discriminate Hk|]).
  by apply elem_of_nil in Hk.
Defined.

(** ** The checksum *)

















(** The checksum of a file that ends with a no-break space, an em
    space and a line feed. *)
Example checksum_unicode_space :
  PyStr.strip ("abc123" +:+ PyStr.of_bytes [194; 160; 226; 128; 131; 10]) = "abc123".
Proof. vm_compute. reflexivity. Qed.

(** ** The repository slug *)

(** C10. With GITHUB_REPOSITORY unset the new version entry is still
    built, and its sourceUrl has the text None where the slug goes;
    the whole run is the run with the slug None.  In a checked run
    over a manifest of plugin entries, with outputs that can be
    written, the entry with that sourceUrl is the first version of the
    plugin with the GUID in the manifest the run dumps; the run ends
    without an exception when the dump comes to its end, the manifest
    file then holding the dumped text (if GITHUB_OUTPUT does not name
    it), and fails only with the exception that stopped the dump. *)
Theorem unset_repository_reads_None `{Library} (w : world) (st : state) :
  environ w !! "GITHUB_REPOSITORY" = None ->
  (forall bc tag version art cs, exists entry,
      new_version_entry w (JObj bc) tag version art cs = Ok entry
      /\ field entry "sourceUrl"
         = Some (JStr ("https://github.com/None/releases/download/"
                         +:+ tag +:+ "/" +:+ art)))
  /\ main w st = main (with_environ w (<["GITHUB_REPOSITORY" := "None"]> (environ w))) st
  /\ (forall guid (bc : dict) tag art cs items,
        checked_inputs w st guid (JObj bc) tag art cs ->
        loaded_manifest w st = Ok (JArr items) ->
        Forall plugin_entry items ->
        outputs_writable w ->
        exists entry items',
          field entry "sourceUrl"
          = Some (JStr ("https://github.com/None/releases/download/"
                          +:+ tag +:+ "/" +:+ art))
          /\ fst (upsert guid (JObj bc) entry (JArr items) st) = Ok (JArr items')
          /\ Exists (fun plugin =>
                       has_guid guid plugin
                       /\ exists older,
                            field plugin "versions" = Some (JArr (entry :: older)))
                    items'
          /\ (forall e, snd (json_dump (JArr items')) = Some e ->
                fst (main w st) = Raise e)
          /\ (snd (json_dump (JArr items')) = None ->
              fst (main w st) = Ok tt
              /\ (environ w !! "GITHUB_OUTPUT" <> Some (manifest_file (environ w)) ->
                  files (snd (main w st)) !! manifest_file (environ w)
                  = Some (fst (json_dump (JArr items')))))).
Proof.
  intros Hnone. split; [|split].
  - intros bc tag version art cs. unfold new_version_entry. rewrite Hnone. simpl.
    eexists. split; reflexivity.
  - by apply main_slug_None.
  - intros guid bc tag art cs items Hin Hload Hwf [Hwm Hwo].
    exists (release_entry w bc tag art cs).
    assert (exists items',
              fst (upsert guid (JObj bc) (release_entry w bc tag art cs) (JArr items) st)
              = Ok (JArr items')
              /\ Exists (fun plugin =>
                           has_guid guid plugin
                           /\ exists older,
                                field plugin "versions"
                                = Some (JArr (release_entry w bc tag art cs :: older)))
                        items') as (items' & Hup & Hex).
    { destruct (upsert_cases guid bc (release_entry w bc tag art cs) items st Hwf)
        as [(pre & p & versions & p' & post & _ & _ & _ & _ & Hv' & Hg' & _ & Hup)
           |[_ Hup]]; rewrite Hup; eexists; (split; [reflexivity|]);
        apply Exists_app; right; apply Exists_cons_hd.
      - split; [done|]. by exists versions.
      - split; [done|]. by exists []. }
    exists items'. split.
    { unfold release_entry, field. simpl. by rewrite Hnone. }
    split; [done|]. split; [done|].
    destruct (main_publishes w st guid bc tag art cs (JArr items) (JArr items')
                Hin Hload Hup) as (st2 & ->).
    rewrite Hwm. split.
    + intros e ->. done.
    + intros ->. rewrite emit_output_eq.
      destruct (environ w !! "GITHUB_OUTPUT") as [out|] eqn:Hout.
      * rewrite (Hwo out eq_refl). simpl. split; [done|]. intros Hne.
        rewrite lookup_insert_ne by congruence. by rewrite lookup_insert_eq.
      * simpl. split; [done|]. intros _. by rewrite lookup_insert_eq.
Qed.

Lemma unset_repository_reads_None_witness :
  @main example_library example_world_no_slug example_state
  = @main example_library
      (with_environ example_world_no_slug
         (<["GITHUB_REPOSITORY" := "None"]> (environ example_world_no_slug)))
      example_state
  /\ exists entry items',
       field entry "sourceUrl"
       = Some (JStr ("https://github.com/None/releases/download/"
                       +:+ "v1.0.0" +:+ "/" +:+ "foo.zip"))
       /\ fst (upsert "G1" example_build_config entry (JArr []) example_state)
          = Ok (JArr items')
       /\ Exists (fun plugin =>
                    has_guid "G1" plugin
                    /\ exists older,
                         field plugin "versions" = Some (JArr (entry :: older)))
                 items'
       /\ (forall e, snd (@json_dump example_library (JArr items')) = Some e ->
             fst (@main example_library example_world_no_slug example_state) = Raise e)
       /\ (snd (@json_dump example_library (JArr items')) = None ->
           fst (@main example_library example_world_no_slug example_state) = Ok tt
           /\ (environ example_world_no_slug !! "GITHUB_OUTPUT"
               <> Some (manifest_file (environ example_world_no_slug)) ->
               files (snd (@main example_library example_world_no_slug example_state))
                 !! manifest_file (environ example_world_no_slug)
               = Some (fst (@json_dump example_library (JArr items'))))).
Proof.
  destruct (@unset_repository_reads_None example_library example_world_no_slug
              example_state) as (_ & Heq & Hrun).
  - vm_compute. reflexivity.
  - split; [exact Heq|].
    apply (Hrun "G1" [("name", JStr "Foo"); ("category", JStr "Tools")]
             "v1.0.0" "foo.zip" ("abc123" +:+ newline) []).
    + check_example.
    + vm_compute. reflexivity.
    + constructor.
    + split; [reflexivity|]. intros path Hpath. vm_compute in Hpath. discriminate Hpath.
Defined.

(** The run of the scenario with GITHUB_REPOSITORY unset: it succeeds
    and the manifest written has the None URL. *)
Example scenario_without_slug :
  let run := @main example_library example_world_no_slug example_state in
  fst run = Ok tt
  /\ files (snd run) !! "manifest-repo/manifest.json"
     = Some (example_dump
               (JArr [first_release "G1" [("name", JStr "Foo"); ("category", JStr "Tools")]
                        (JObj [("version", JStr "1.0.0");
                               ("changelog", JStr "See release notes.");
                               ("timestamp", JStr "2024-01-01T00:00:00Z");
                               ("sourceUrl",
                                JStr "https://github.com/None/releases/download/v1.0.0/foo.zip");
                               ("checksum", JStr "abc123");
                               ("targetAbi", JStr "unknown")])])).
Proof. vm_compute. repeat split. Qed.
